(** * Electronics Workbench: the circuit model and its analysis engine

    A shallow embedding of [streamlit_electronics_workbench.py]:
    the component catalog [COMPONENTS], the session state kept in
    [st.session_state], the analysis function
    [calculate_circuit_parameters] and the button handlers of [main].

    Conventions of the embedding.
    - A Python [float] is an IEEE 754 binary64 number: Rocq's primitive
      [float], whose [+], [*], [/] and comparisons round and compare as
      Python's do.
    - The integer literals [0] and [1] that the program mixes into float
      arithmetic (the defaults of [dict.get], the initial totals) are
      written as the floats [0] and [1]: Python converts them before it
      computes, and [0 == 0.0].
    - A raised exception is a result of its own ([Raise]); nothing is
      left undefined.
    - The renderer ([create_component_symbol], [draw_circuit]), the CSV
      export and the parsing of the select box labels back into ids are
      presentation code and are not embedded: the handlers start from the
      ids the labels carry. *)

From Stdlib Require Import ZArith List Bool Lia.
From Stdlib Require Import Floats.
From stdpp Require Import base option list list_numbers strings gmap.

Set Warnings "-inexact-float".

(** ** Python values, exceptions and float arithmetic *)

(** The exceptions the embedded code can raise. *)
Inductive exn : Set :=
| ZeroDivisionError
| OverflowError
| TypeError
| KeyError
| StopIteration.

(** A call either returns a value or raises. *)
Inductive outcome (A : Type) : Type :=
| Ret (a : A)
| Raise (e : exn).
Arguments Ret {A} a.
Arguments Raise {A} e.

#[global] Instance outcome_ret : MRet outcome := @Ret.
#[global] Instance outcome_bind : MBind outcome :=
  fun A B (k : A -> outcome B) (c : outcome A) =>
    match c with
    | Ret a => k a
    | Raise e => Raise e
    end.

(** A parameter value: the catalog holds floats and strings, and the
    parameter editor writes back a float for a float and a string for a
    string. *)
Inductive value : Type :=
| VFloat (f : float)
| VStr (s : string).
Arguments VFloat f%_float.

(** [bool(v)]: a float is false when it equals zero (either sign), a
    string when it is empty. *)
Definition truthy (v : value) : bool :=
  match v with
  | VFloat f => negb (f =? 0)%float
  | VStr EmptyString => false
  | VStr _ => true
  end.

(** Using a value in arithmetic or in a comparison with a number:
    a string raises [TypeError]. *)
Definition to_number (v : value) : outcome float :=
  match v with
  | VFloat f => Ret f
  | VStr _ => Raise TypeError
  end.

(** [d.get(key, dflt)] *)
Definition dict_get (d : gmap string value) (key : string) (dflt : value) : value :=
  default dflt (d !! key).

(** [d.get(key, dflt)] used as a number. *)
Definition get_number (d : gmap string value) (key : string) (dflt : float) : outcome float :=
  to_number (dict_get d key (VFloat dflt)).

(** [a / b] on floats: a zero divisor raises, anything else is the
    IEEE quotient (an overflowing quotient is [inf], not an error). *)
Definition py_truediv (a b : float) : outcome float :=
  if (b =? 0)%float then Raise ZeroDivisionError else Ret (a / b)%float.

(** [a ** 2] on floats ([float_pow] with the exponent 2): the square,
    computed by the C library's [pow], taken here as the correctly
    rounded product; a finite base whose square overflows raises
    [OverflowError]. *)
Definition py_pow2 (a : float) : outcome float :=
  let r := (a * a)%float in
  if is_finite a && is_infinity r then Raise OverflowError else Ret r.

(** [sum(l)]: left to right from zero (the plain summation of
    CPython before 3.12). *)
Definition py_sum (l : list float) : float :=
  fold_left PrimFloat.add l 0%float.

(** [np.pi], the binary64 number nearest to pi. *)
Definition np_pi : float := 0x1.921fb54442d18p+1%float.

(** [float('inf')] *)
Definition float_inf : float := infinity.

(** ** The component catalog *)

(** [COMPONENTS[name]['params']] for the 13 component types.  The
    entries "symbol", "units" and "color" only feed the renderer and
    the labels of the editor. *)
Definition COMPONENTS : list (string * gmap string value) :=
  [ ("Resistor",
      {[ "resistance" := VFloat 1000.0; "power_rating" := VFloat 0.25;
         "tolerance" := VFloat 5.0 ]});
    ("Capacitor",
      {[ "capacitance" := VFloat 100e-6; "voltage_rating" := VFloat 25.0;
         "type" := VStr "Ceramic" ]});
    ("Inductor",
      {[ "inductance" := VFloat 1e-3; "current_rating" := VFloat 1.0;
         "resistance" := VFloat 0.1 ]});
    ("Diode",
      {[ "forward_voltage" := VFloat 0.7; "max_current" := VFloat 1.0;
         "reverse_voltage" := VFloat 50.0 ]});
    ("LED",
      {[ "forward_voltage" := VFloat 2.0; "forward_current" := VFloat 0.02;
         "color" := VStr "Red" ]});
    ("Transistor (NPN)",
      {[ "beta" := VFloat 100.0; "vbe" := VFloat 0.7; "vce_sat" := VFloat 0.2 ]});
    ("Battery",
      {[ "voltage" := VFloat 9.0; "capacity" := VFloat 1000.0;
         "internal_resistance" := VFloat 0.1 ]});
    ("AC Source",
      {[ "voltage_rms" := VFloat 120.0; "frequency" := VFloat 50.0;
         "phase" := VFloat 0.0 ]});
    ("Ground", ∅);
    ("Switch",
      {[ "state" := VStr "Open"; "contact_resistance" := VFloat 0.01 ]});
    ("Ammeter",
      {[ "range" := VFloat 1.0; "reading" := VFloat 0.0; "accuracy" := VFloat 1.0 ]});
    ("Voltmeter",
      {[ "range" := VFloat 10.0; "reading" := VFloat 0.0; "accuracy" := VFloat 1.0 ]});
    ("Load",
      {[ "power" := VFloat 100.0; "voltage" := VFloat 12.0;
         "type" := VStr "Resistive" ]}) ].

(** [COMPONENTS[name]['params']]: an unknown name raises [KeyError]. *)
Fixpoint lookup_params (table : list (string * gmap string value)) (name : string)
  : outcome (gmap string value) :=
  match table with
  | [] => Raise KeyError
  | (n, p) :: rest => if String.eqb name n then Ret p else lookup_params rest name
  end.

(** [list(COMPONENTS.keys())], the choices of the component select box. *)
Definition catalog_types : list string := map fst COMPONENTS.

(** ** The data model *)

(** A placed component: the dict with the keys 'id', 'type', 'x', 'y'
    and 'params'. *)
Module comp.
Record t : Type := mk {
  id : Z;
  type : string;
  x : float;
  y : float;
  params : gmap string value
}.
End comp.

(** A connection: the dict with the keys 'from_comp' and 'to_comp'.
    Python compares two such dicts key by key, so equality of
    connections is equality of ordered pairs. *)
Module conn.
Record t : Type := mk {
  from_comp : Z;
  to_comp : Z
}.
#[global] Instance eq_dec : EqDecision t.
Proof. solve_decision. Defined.
End conn.

(** One entry of 'component_analysis': id, type, a copy of the
    parameters and, when the branch for the type sets it, the
    'calculated' dict. *)
Module entry.
Record t : Type := mk {
  id : Z;
  type : string;
  parameters : gmap string value;
  calculated : option (gmap string float)
}.
End entry.

(** The dict [calculate_circuit_parameters] returns.  The keys
    'circuit_current' and 'total_power' are present or absent. *)
Module results.
Record t : Type := mk {
  total_resistance : float;
  total_capacitance : float;
  total_inductance : float;
  voltage_sources : list float;
  power_consumption : float;
  component_analysis : list entry.t;
  circuit_current : option float;
  total_power : option float
}.
End results.

(** [st.session_state].  [analysis_results] starts as the empty dict,
    here [None]. *)
Record session_state : Type := mk_state {
  circuit_components : list comp.t;
  connections : list conn.t;
  analysis_results : option results.t;
  component_counter : Z
}.

Definition initial_state : session_state :=
  {| circuit_components := [];
     connections := [];
     analysis_results := None;
     component_counter := 0 |}.

(** ** The analysis engine *)

Section Analysis.
Local Open Scope float_scope.

(** The [results] dict before the first component is visited. *)
Definition empty_results : results.t :=
  results.mk 0 0 0 [] 0 [] None None.

Definition set_total_resistance (v : float) (r : results.t) : results.t :=
  results.mk v (results.total_capacitance r) (results.total_inductance r)
    (results.voltage_sources r) (results.power_consumption r)
    (results.component_analysis r) (results.circuit_current r) (results.total_power r).

Definition set_total_capacitance (v : float) (r : results.t) : results.t :=
  results.mk (results.total_resistance r) v (results.total_inductance r)
    (results.voltage_sources r) (results.power_consumption r)
    (results.component_analysis r) (results.circuit_current r) (results.total_power r).

Definition set_total_inductance (v : float) (r : results.t) : results.t :=
  results.mk (results.total_resistance r) (results.total_capacitance r) v
    (results.voltage_sources r) (results.power_consumption r)
    (results.component_analysis r) (results.circuit_current r) (results.total_power r).

Definition set_voltage_sources (v : list float) (r : results.t) : results.t :=
  results.mk (results.total_resistance r) (results.total_capacitance r)
    (results.total_inductance r) v (results.power_consumption r)
    (results.component_analysis r) (results.circuit_current r) (results.total_power r).

Definition set_power_consumption (v : float) (r : results.t) : results.t :=
  results.mk (results.total_resistance r) (results.total_capacitance r)
    (results.total_inductance r) (results.voltage_sources r) v
    (results.component_analysis r) (results.circuit_current r) (results.total_power r).

Definition set_component_analysis (v : list entry.t) (r : results.t) : results.t :=
  results.mk (results.total_resistance r) (results.total_capacitance r)
    (results.total_inductance r) (results.voltage_sources r)
    (results.power_consumption r) v (results.circuit_current r) (results.total_power r).

Definition set_current_and_power (i p : float) (r : results.t) : results.t :=
  results.mk (results.total_resistance r) (results.total_capacitance r)
    (results.total_inductance r) (results.voltage_sources r)
    (results.power_consumption r) (results.component_analysis r) (Some i) (Some p).

(** The voltage a Battery or an AC Source contributes:
    [params.get('voltage', 0) or params.get('voltage_rms', 0)]. *)
Definition source_voltage (p : gmap string value) : value :=
  let v := dict_get p "voltage" (VFloat 0) in
  if truthy v then v else dict_get p "voltage_rms" (VFloat 0).

(** The [if]/[elif] chain on [comp['type']] of the loop body: the
    totals it updates and the 'calculated' dict it sets, if any. *)
Definition analyze_type (c : comp.t) (r : results.t)
  : outcome (results.t * option (gmap string float)) :=
  let p := comp.params c in
  if String.eqb (comp.type c) "Resistor" then
    resistance ← get_number p "resistance" 0;
    let r := set_total_resistance (results.total_resistance r + resistance) r in
    let current := 0.001 in
    current_squared ← py_pow2 current;
    let power := current_squared * resistance in
    Ret (r, Some {[ "power_dissipated" := power;
                    "voltage_drop" := current * resistance ]})
  else if String.eqb (comp.type c) "Capacitor" then
    capacitance ← get_number p "capacitance" 0;
    let r := if 0 <? capacitance
             then set_total_capacitance (results.total_capacitance r + capacitance) r
             else r in
    voltage_rating ← get_number p "voltage_rating" 0;
    rating_squared ← py_pow2 voltage_rating;
    reactance ← (if 0 <? capacitance
                 then py_truediv 1 (2 * np_pi * 60 * capacitance)
                 else Ret float_inf);
    Ret (r, Some {[ "energy_stored" := 0.5 * capacitance * rating_squared;
                    "reactance_60hz" := reactance ]})
  else if String.eqb (comp.type c) "Inductor" then
    inductance ← get_number p "inductance" 0;
    let r := set_total_inductance (results.total_inductance r + inductance) r in
    current_rating ← get_number p "current_rating" 0;
    rating_squared ← py_pow2 current_rating;
    Ret (r, Some {[ "energy_stored" := 0.5 * inductance * rating_squared;
                    "reactance_60hz" := 2 * np_pi * 60 * inductance ]})
  else if String.eqb (comp.type c) "Battery" || String.eqb (comp.type c) "AC Source" then
    voltage ← to_number (source_voltage p);
    let r := set_voltage_sources (results.voltage_sources r ++ [voltage]) r in
    voltage_squared ← py_pow2 voltage;
    internal_resistance ← get_number p "internal_resistance" 1;
    max_power ← py_truediv voltage_squared internal_resistance;
    Ret (r, Some {[ "max_power" := max_power ]})
  else if String.eqb (comp.type c) "Load" then
    power ← get_number p "power" 0;
    let r := set_power_consumption (results.power_consumption r + power) r in
    voltage ← get_number p "voltage" 0;
    if 0 <? voltage then
      current ← py_truediv power voltage;
      resistance ← (if 0 <? current then py_truediv voltage current else Ret float_inf);
      Ret (r, Some {[ "current" := current; "resistance" := resistance ]})
    else Ret (r, None)
  else Ret (r, None).

(** The entry of a component: its id, its type, a copy of its params
    and the 'calculated' dict when the branch for its type set one. *)
Definition entry_of (c : comp.t) (calculated : option (gmap string float)) : entry.t :=
  entry.mk (comp.id c) (comp.type c) (comp.params c) calculated.

(** One iteration of the loop over the components: the entry is built
    from the component, the branch for its type runs, and the entry is
    appended to 'component_analysis'. *)
Definition analyze_component (c : comp.t) (r : results.t) : outcome results.t :=
  '(r', calculated) ← analyze_type c r;
  Ret (set_component_analysis
         (results.component_analysis r' ++ [entry_of c calculated]) r').

Fixpoint analyze_loop (comps : list comp.t) (r : results.t) : outcome results.t :=
  match comps with
  | [] => Ret r
  | c :: rest => r' ← analyze_component c r; analyze_loop rest r'
  end.

(** The overall circuit calculations after the loop. *)
Definition overall_calculations (r : results.t) : outcome results.t :=
  match results.voltage_sources r with
  | [] => Ret r
  | _ :: _ =>
      if 0 <? results.total_resistance r then
        let total_voltage := py_sum (results.voltage_sources r) in
        circuit_current ← py_truediv total_voltage (results.total_resistance r);
        Ret (set_current_and_power circuit_current (total_voltage * circuit_current) r)
      else Ret r
  end.

(** [calculate_circuit_parameters()]: it reads the session state and
    returns the results dict. *)
Definition calculate_circuit_parameters (st : session_state) : outcome results.t :=
  r ← analyze_loop (circuit_components st) empty_results;
  overall_calculations r.

End Analysis.

(** ** The button handlers of [main] *)

(** What a handler shows: [st.success], [st.warning] or [st.error]
    with its message, or the exception that escaped it. *)
Inductive response : Type :=
| st_success (msg : string)
| st_warning (msg : string)
| st_error (msg : string)
| uncaught (e : exn).

(** The outcomes the specification names. *)
Definition SelfConnection : response := st_error "Cannot connect component to itself!".
Definition DuplicateConnection : response := st_warning "Connection already exists!".
Definition ConnectionCreated : response := st_success "Connection created!".
Definition UnknownComponentType : response := uncaught KeyError.

Definition set_circuit_components (v : list comp.t) (st : session_state) : session_state :=
  mk_state v (connections st) (analysis_results st) (component_counter st).

Definition set_connections (v : list conn.t) (st : session_state) : session_state :=
  mk_state (circuit_components st) v (analysis_results st) (component_counter st).

Definition set_analysis_results (v : option results.t) (st : session_state) : session_state :=
  mk_state (circuit_components st) (connections st) v (component_counter st).

Definition set_component_counter (v : Z) (st : session_state) : session_state :=
  mk_state (circuit_components st) (connections st) (analysis_results st) v.

(** "Add Component": the counter is incremented first, then the new
    component is built (the catalog lookup may raise) and appended. *)
Definition add_component (selected_component : string) (x_pos y_pos : float)
    (st : session_state) : session_state * response :=
  let st := set_component_counter (component_counter st + 1) st in
  match lookup_params COMPONENTS selected_component with
  | Raise e => (st, uncaught e)
  | Ret default_params =>
      let new_component :=
        comp.mk (component_counter st) selected_component x_pos y_pos default_params in
      (set_circuit_components (circuit_components st ++ [new_component]) st,
       st_success ("Added " +:+ selected_component +:+ " to circuit!"))
  end.

(** "Connect Components", from the two ids on. *)
Definition connect_components (from_id to_id : Z) (st : session_state)
  : session_state * response :=
  if decide (from_id ≠ to_id) then
    let connection := conn.mk from_id to_id in
    if decide (connection ∉ connections st) then
      (set_connections (connections st ++ [connection]) st, st_success "Connection created!")
    else (st, st_warning "Connection already exists!")
  else (st, st_error "Cannot connect component to itself!").

(** "Clear Circuit" *)
Definition clear_circuit (st : session_state) : session_state * response :=
  (set_component_counter 0 (set_connections [] (set_circuit_components [] st)),
   st_success "Circuit cleared!").

(** "Analyze Circuit" *)
Definition analyze_circuit (st : session_state) : session_state * response :=
  match circuit_components st with
  | [] => (st, st_error "Add components to analyze!")
  | _ :: _ =>
      match calculate_circuit_parameters st with
      | Raise e => (st, uncaught e)
      | Ret r => (set_analysis_results (Some r) st, st_success "Analysis complete!")
      end
  end.

(** [next(c for c in circuit_components if c['id'] == comp_id)] followed
    by [component['params'] = new_params]: the first component with the
    id gets the new dict, in place; [None] when the generator is
    exhausted. *)
Fixpoint assign_params (comp_id : Z) (new_params : gmap string value)
    (comps : list comp.t) : option (list comp.t) :=
  match comps with
  | [] => None
  | c :: rest =>
      if decide (comp.id c = comp_id)
      then Some (comp.mk (comp.id c) (comp.type c) (comp.x c) (comp.y c) new_params :: rest)
      else cons c <$> assign_params comp_id new_params rest
  end.

(** [next(c for c in comps if c['id'] == comp_id)] *)
Fixpoint find_component (comp_id : Z) (comps : list comp.t) : outcome comp.t :=
  match comps with
  | [] => Raise StopIteration
  | c :: rest => if decide (comp.id c = comp_id) then Ret c else find_component comp_id rest
  end.

(** The form of the parameter editor: one widget per parameter of the
    component, a text input for a string and a number input for
    anything else; [text] and [number] are what the user entered in
    the widget of each parameter. *)
Definition editor_form (text : string -> string) (number : string -> float)
    (old_params : gmap string value) : gmap string value :=
  map_imap (fun param v =>
              Some match v with
                   | VStr _ => VStr (text param)
                   | VFloat _ => VFloat (number param)
                   end) old_params.

(** "Update Parameters" *)
Definition update_parameters (comp_id : Z) (new_params : gmap string value)
    (st : session_state) : session_state * response :=
  match assign_params comp_id new_params (circuit_components st) with
  | None => (st, uncaught StopIteration)
  | Some comps => (set_circuit_components comps st, st_success "Parameters updated!")
  end.

(** The user's actions and the session they drive. *)
Inductive action : Type :=
| AddComponent (selected_component : string) (x_pos y_pos : float)
| ConnectComponents (from_id to_id : Z)
| ClearCircuit
| AnalyzeCircuit
| UpdateParameters (comp_id : Z) (new_params : gmap string value).

Definition handle (a : action) (st : session_state) : session_state * response :=
  match a with
  | AddComponent ty x_pos y_pos => add_component ty x_pos y_pos st
  | ConnectComponents from_id to_id => connect_components from_id to_id st
  | ClearCircuit => clear_circuit st
  | AnalyzeCircuit => analyze_circuit st
  | UpdateParameters comp_id new_params => update_parameters comp_id new_params st
  end.

(** The state after a sequence of actions. *)
Definition run (actions : list action) (st : session_state) : session_state :=
  fold_left (fun st a => fst (handle a st)) actions st.

(** No stored connection joins a component to itself. *)
Definition no_self_connection (st : session_state) : Prop :=
  Forall (fun c => conn.from_comp c ≠ conn.to_comp c) (connections st).

(** ** Reading results, and the scenarios of the specification *)

(** [entry['calculated'][key]], when both keys are there. *)
Definition calculated_value (e : entry.t) (key : string) : option float :=
  entry.calculated e ≫= fun m => m !! key.

(** Component [i] of the analysis: [results['component_analysis'][i]['calculated'][key]]. *)
Definition calculated_at (r : results.t) (i : nat) (key : string) : option float :=
  results.component_analysis r !! i ≫= fun e => calculated_value e key.

(** One Resistor of 2000 ohm and one Battery of 9 V with 0.1 ohm of
    internal resistance, placed and edited through the handlers. *)
Definition resistor_battery_circuit : session_state :=
  run [ AddComponent "Resistor" 2 2;
        AddComponent "Battery" 4 2;
        UpdateParameters 1 {[ "resistance" := VFloat 2000.0;
                              "power_rating" := VFloat 0.25;
                              "tolerance" := VFloat 5.0 ]} ]
      initial_state.

(** What the analysis of that circuit returns. *)
Definition resistor_battery_result : results.t :=
  results.mk 2000.0 0 0 [9.0%float] 0
    [ entry.mk 1 "Resistor"
        {[ "resistance" := VFloat 2000.0; "power_rating" := VFloat 0.25;
           "tolerance" := VFloat 5.0 ]}
        (Some {[ "power_dissipated" := 0.002%float; "voltage_drop" := 2.0%float ]});
      entry.mk 2 "Battery"
        {[ "voltage" := VFloat 9.0; "capacity" := VFloat 1000.0;
           "internal_resistance" := VFloat 0.1 ]}
        (Some {[ "max_power" := 810.0%float ]}) ]
    (Some 0.0045%float) (Some 0.040499999999999994%float).


(** One Load of 100 W whose voltage was set to 0. *)
Definition load_circuit : session_state :=
  run [ AddComponent "Load" 2 2;
        UpdateParameters 1 {[ "power" := VFloat 100.0; "voltage" := VFloat 0.0;
                              "type" := VStr "Resistive" ]} ]
      initial_state.

(** One Load whose power was set to -5 W, at 12 V. *)
Definition negative_load_circuit : session_state :=
  run [ AddComponent "Load" 2 2;
        UpdateParameters 1 {[ "power" := VFloat (-5.0); "voltage" := VFloat 12.0;
                              "type" := VStr "Resistive" ]} ]
      initial_state.

(** One Battery whose internal resistance was set to 0. *)
Definition shorted_battery_circuit : session_state :=
  run [ AddComponent "Battery" 2 2;
        UpdateParameters 1 {[ "voltage" := VFloat 9.0; "capacity" := VFloat 1000.0;
                              "internal_resistance" := VFloat 0.0 ]} ]
      initial_state.



(** What the analysis of the two Load circuits returns. *)
Definition load_result : results.t :=
  results.mk 0 0 0 [] 100.0
    [ entry.mk 1 "Load"
        {[ "power" := VFloat 100.0; "voltage" := VFloat 0.0; "type" := VStr "Resistive" ]}
        None ]
    None None.

Definition negative_load_result : results.t :=
  results.mk 0 0 0 [] (-5.0)
    [ entry.mk 1 "Load"
        {[ "power" := VFloat (-5.0); "voltage" := VFloat 12.0; "type" := VStr "Resistive" ]}
        (Some {[ "current" := (-5.0 / 12.0)%float; "resistance" := infinity ]}) ]
    None None.

(** The 'calculated' dict of a Load as the loop sets it: absent unless
    voltage > 0; then current = power / voltage and resistance =
    voltage / current when current > 0, +infinity when not. *)
Definition spec_load_calculated (power voltage : float) : option (gmap string float) :=
  if (0 <? voltage)%float then
    Some {[ "current" := (power / voltage)%float;
            "resistance" := if (0 <? power / voltage)%float
                            then (voltage / (power / voltage))%float
                            else infinity ]}
  else None.

(** [comp['type'] in ['Battery', 'AC Source']] *)
Definition is_source (c : comp.t) : bool :=
  String.eqb (comp.type c) "Battery" || String.eqb (comp.type c) "AC Source".


(** A Battery and an AC Source with the catalog's parameters. *)
Definition two_sources_circuit : session_state :=
  run [ AddComponent "Battery" 2 2; AddComponent "AC Source" 4 2 ] initial_state.

Definition two_sources_result : results.t :=
  results.mk 0 0 0 [9.0%float; 120.0%float] 0
    [ entry.mk 1 "Battery"
        {[ "voltage" := VFloat 9.0; "capacity" := VFloat 1000.0;
           "internal_resistance" := VFloat 0.1 ]}
        (Some {[ "max_power" := 810.0%float ]});
      entry.mk 2 "AC Source"
        {[ "voltage_rms" := VFloat 120.0; "frequency" := VFloat 50.0;
           "phase" := VFloat 0.0 ]}
        (Some {[ "max_power" := 14400.0%float ]}) ]
    None None.




(** Adding components one after the other: the type and the position
    of each. *)
Definition add_all (adds : list (string * float * float)) (st : session_state)
  : session_state :=
  run (map (fun a => AddComponent a.1.1 a.1.2 a.2) adds) st.

(** The Resistor and Battery circuit with its two components connected. *)
Definition connected_circuit : session_state :=
  run [ ConnectComponents 1 2 ] resistor_battery_circuit.

(** A circuit that was analyzed and then cleared. *)
Definition cleared_after_analysis : session_state :=
  run [ AnalyzeCircuit; ClearCircuit ] resistor_battery_circuit.

(** ** What the user interface can reach *)

(** A component has the keys of its catalog entry. *)
Definition catalog_shaped (c : comp.t) : Prop :=
  exists p, lookup_params COMPONENTS (comp.type c) = Ret p /\
            dom (comp.params c) = dom p.

(** The states of a session: the select box only offers the types of
    the catalog, and "Update Parameters" only stores what the editor
    form built from the parameters of the component it shows. *)
Inductive ui_reachable : session_state -> Prop :=
| ui_initial : ui_reachable initial_state
| ui_add st ty x_pos y_pos :
    ui_reachable st -> In ty catalog_types ->
    ui_reachable (fst (add_component ty x_pos y_pos st))
| ui_connect st from_id to_id :
    ui_reachable st -> ui_reachable (fst (connect_components from_id to_id st))
| ui_clear st :
    ui_reachable st -> ui_reachable (fst (clear_circuit st))
| ui_analyze st :
    ui_reachable st -> ui_reachable (fst (analyze_circuit st))
| ui_update st comp_id c text number :
    ui_reachable st ->
    find_component comp_id (circuit_components st) = Ret c ->
    ui_reachable
      (fst (update_parameters comp_id (editor_form text number (comp.params c)) st)).

(** ** Reading the parameters the analysis adds up *)

(** The number a parameter holds ([0] for a missing key; a string
    never reaches an addition, the analysis raises first). *)
Definition param_number (c : comp.t) (key : string) : float :=
  match dict_get (comp.params c) key (VFloat 0) with
  | VFloat f => f
  | VStr _ => 0%float
  end.

(** [comp['type'] == name] *)
Definition has_type (name : string) (c : comp.t) : bool :=
  String.eqb (comp.type c) name.

(** The types with a branch of their own in the analysis. *)
Definition analyzed_types : list string :=
  ["Resistor"; "Capacitor"; "Inductor"; "Battery"; "AC Source"; "Load"].


(** The 'calculated' dict of a Resistor: the dissipation and the drop
    at the assumed current of 1 mA. *)
Definition spec_resistor_calculated (resistance : float) : gmap string float :=
  {[ "power_dissipated" := (0.001 * 0.001 * resistance)%float;
     "voltage_drop" := (0.001 * resistance)%float ]}.


(** Whether a parameter value is a number or a string. *)
Definition is_number (v : value) : bool :=
  match v with VFloat _ => true | VStr _ => false end.

(** A component has the keys of its catalog entry, numbers where the
    entry has numbers and strings where it has strings. *)
Definition catalog_typed (c : comp.t) : Prop :=
  exists p, lookup_params COMPONENTS (comp.type c) = Ret p /\
            forall key, is_number <$> (comp.params c !! key) = is_number <$> (p !! key).


(** ** Identity of components and the drawing of connections *)

(** The ids of the components are distinct and lie between 1 and the
    counter. *)
Definition ids_allocated (st : session_state) : Prop :=
  (0 <= component_counter st)%Z /\
  Forall (fun c => (1 <= comp.id c <= component_counter st)%Z) (circuit_components st) /\
  NoDup (map comp.id (circuit_components st)).

(** The loop of [draw_circuit] over the connections: both ends are
    looked up with [next(c for c in circuit_components if c['id'] == ...)]
    and a line is drawn from 0.3 right of the first to 0.3 left of the
    second.  (The symbols of the components are drawn before, by the
    renderer.) *)
Definition connection_line (comp1 comp2 : comp.t) : (float * float) * (float * float) :=
  ((comp.x comp1 + 0.3, comp.y comp1), (comp.x comp2 - 0.3, comp.y comp2))%float.

Fixpoint draw_connections (comps : list comp.t) (conns : list conn.t)
  : outcome (list ((float * float) * (float * float))) :=
  match conns with
  | [] => Ret []
  | cn :: rest =>
      comp1 ← find_component (conn.from_comp cn) comps;
      comp2 ← find_component (conn.to_comp cn) comps;
      lines ← draw_connections comps rest;
      Ret (connection_line comp1 comp2 :: lines)
  end.

(** Both ends of a connection are ids of components. *)
Definition resolved (comps : list comp.t) (cn : conn.t) : Prop :=
  In (conn.from_comp cn) (map comp.id comps) /\ In (conn.to_comp cn) (map comp.id comps).

(** The states of a session in which, as the page has it, the two ends
    of a new connection are picked among the components present (the
    select boxes only show when there are at least two). *)
Inductive session : session_state -> Prop :=
| session_start : session initial_state
| session_add st ty x_pos y_pos :
    session st -> In ty catalog_types ->
    session (fst (add_component ty x_pos y_pos st))
| session_connect st comp1 comp2 :
    session st -> 2 <= length (circuit_components st) ->
    In comp1 (circuit_components st) -> In comp2 (circuit_components st) ->
    session (fst (connect_components (comp.id comp1) (comp.id comp2) st))
| session_clear st :
    session st -> session (fst (clear_circuit st))
| session_analyze st :
    session st -> session (fst (analyze_circuit st))
| session_update st comp_id c text number :
    session st ->
    find_component comp_id (circuit_components st) = Ret c ->
    session
      (fst (update_parameters comp_id (editor_form text number (comp.params c)) st)).

(** * Properties *)

(** ** Floats and outcomes *)

(** A float above zero is not equal to zero: a division guarded by
    [> 0] cannot raise. *)
Lemma gt0_nonzero (v : float) : (0 <? v)%float = true -> (v =? 0)%float = false.
Proof.
  rewrite FloatAxioms.ltb_spec, FloatAxioms.eqb_spec. unfold SFltb, SFeqb.
  change (Prim2SF 0) with (S754_zero false).
  destruct (Prim2SF v) as [s|s| |s m e]; cbn; try discriminate; try reflexivity;
    destruct s; cbn; try discriminate; reflexivity.
Qed.

Lemma py_truediv_pos (a b : float) :
  (0 <? b)%float = true -> py_truediv a b = Ret (a / b)%float.
Proof. intros Hb. unfold py_truediv. now rewrite (gt0_nonzero b Hb). Qed.

Lemma py_truediv_Ret (a b q : float) :
  py_truediv a b = Ret q -> (b =? 0)%float = false /\ q = (a / b)%float.
Proof. unfold py_truediv. destruct (b =? 0)%float; [discriminate|]. now intros [= <-]. Qed.


Lemma bind_Ret {A B} (c : outcome A) (k : A -> outcome B) (b : B) :
  c ≫= k = Ret b -> exists a, c = Ret a /\ k a = Ret b.
Proof. destruct c as [a|e]; [|discriminate]. intros H. now exists a. Qed.

Lemma to_number_Ret (v : value) (f : float) : to_number v = Ret f -> v = VFloat f.
Proof. destruct v; [|discriminate]. now intros [= <-]. Qed.

(** Splitting a successful run of monadic code into its steps. *)
Ltac split_run :=
  repeat match goal with
    | H : _ ≫= _ = Ret _ |- _ =>
        let a := fresh "a" in
        let Ha := fresh "Ha" in
        apply bind_Ret in H as (a & Ha & H)
    | H : (let '(_, _) := ?p in _) = Ret _ |- _ => destruct p
    | H : (if ?b then _ else _) = Ret _ |- _ => destruct b eqn:?
    | H : Ret _ = Ret _ |- _ => injection H as H
    | H : Raise _ = Ret _ |- _ => discriminate H
    | H : (_, _) = (_, _) |- _ => injection H as ? ?
    end; subst.

(** ** The loop of the analysis *)

(** The branch for a type leaves alone what only the end of the
    analysis and the end of the iteration write. *)
Lemma analyze_type_frame (c : comp.t) (r r' : results.t) calc :
  analyze_type c r = Ret (r', calc) ->
  results.circuit_current r' = results.circuit_current r /\
  results.total_power r' = results.total_power r /\
  results.component_analysis r' = results.component_analysis r.
Proof.
  unfold analyze_type. intros H. split_run; auto.
Qed.

Lemma analyze_component_Ret (c : comp.t) (r r2 : results.t) :
  analyze_component c r = Ret r2 ->
  exists r1 calc,
    analyze_type c r = Ret (r1, calc) /\
    r2 = set_component_analysis (results.component_analysis r1 ++ [entry_of c calc]) r1.
Proof.
  unfold analyze_component. intros H.
  apply bind_Ret in H as ([r1 calc] & Ht & H). injection H as <-. eauto.
Qed.

Lemma analyze_loop_app (l1 l2 : list comp.t) (r : results.t) :
  analyze_loop (l1 ++ l2) r = analyze_loop l1 r ≫= analyze_loop l2.
Proof.
  revert r. induction l1 as [|c l1 IH]; intros r; [reflexivity|].
  cbn [app analyze_loop]. destruct (analyze_component c r) as [r1|e]; [|reflexivity].
  cbn. apply IH.
Qed.

(** The loop never writes 'circuit_current' or 'total_power'. *)
Lemma analyze_loop_frame (comps : list comp.t) (r r' : results.t) :
  analyze_loop comps r = Ret r' ->
  results.circuit_current r' = results.circuit_current r /\
  results.total_power r' = results.total_power r.
Proof.
  revert r. induction comps as [|c comps IH]; intros r H; cbn in H.
  - now injection H as <-.
  - apply bind_Ret in H as (r2 & Hc & H).
    apply analyze_component_Ret in Hc as (r1 & calc & Ht & ->).
    apply analyze_type_frame in Ht as (Hi & Hp & _).
    apply IH in H as [-> ->]. now cbn.
Qed.

(** The calculations after the loop cannot raise: the only division is
    guarded by [total_resistance > 0]. *)
Lemma overall_calculations_eq (r : results.t) :
  overall_calculations r =
  Ret (match results.voltage_sources r with
       | [] => r
       | _ :: _ =>
           if (0 <? results.total_resistance r)%float then
             let total_voltage := py_sum (results.voltage_sources r) in
             let circuit_current := (total_voltage / results.total_resistance r)%float in
             set_current_and_power circuit_current (total_voltage * circuit_current)%float r
           else r
       end).
Proof.
  unfold overall_calculations. destruct (results.voltage_sources r); [reflexivity|].
  destruct (0 <? results.total_resistance r)%float eqn:Hpos; [|reflexivity].
  now rewrite (py_truediv_pos _ _ Hpos).
Qed.

Lemma calculate_Ret (st : session_state) (r : results.t) :
  calculate_circuit_parameters st = Ret r ->
  exists r0, analyze_loop (circuit_components st) empty_results = Ret r0 /\
             overall_calculations r0 = Ret r.
Proof. unfold calculate_circuit_parameters. apply bind_Ret. Qed.

Lemma float_neq (a b : float) : (a =? b)%float = false -> is_nan a = false -> a <> b.
Proof.
  intros Hab Ha ->. unfold is_nan in Ha. rewrite Hab in Ha. discriminate.
Qed.

(** The loop appends one entry per component, in order, each built
    from the component and from what the branch for its type
    calculated. *)
Definition visited (c : comp.t) (e : entry.t) : Prop :=
  exists ra rb calc, analyze_type c ra = Ret (rb, calc) /\ e = entry_of c calc.

Lemma analyze_loop_entries (comps : list comp.t) (r0 r : results.t) :
  analyze_loop comps r0 = Ret r ->
  exists es, results.component_analysis r = results.component_analysis r0 ++ es /\
             Forall2 visited comps es.
Proof.
  revert r0. induction comps as [|c comps IH]; intros r0 H; cbn in H.
  - injection H as <-. exists []. split; [now rewrite app_nil_r|constructor].
  - apply bind_Ret in H as (r2 & Hc & H).
    apply analyze_component_Ret in Hc as (r1 & calc & Ht & ->).
    apply IH in H as (es & Hes & HF). cbn in Hes.
    pose proof (analyze_type_frame _ _ _ _ Ht) as (_ & _ & Hca).
    exists (entry_of c calc :: es). split.
    + rewrite Hes, Hca, <- app_assoc. reflexivity.
    + constructor; [|exact HF]. now exists r0, r1, calc.
Qed.

Lemma overall_calculations_analysis (r0 r : results.t) :
  overall_calculations r0 = Ret r ->
  results.component_analysis r = results.component_analysis r0 /\
  results.voltage_sources r = results.voltage_sources r0 /\
  results.total_resistance r = results.total_resistance r0 /\
  results.total_capacitance r = results.total_capacitance r0 /\
  results.power_consumption r = results.power_consumption r0.
Proof.
  rewrite overall_calculations_eq. intros [= <-].
  destruct (results.voltage_sources r0) eqn:E; [now rewrite E|].
  destruct (0 <? results.total_resistance r0)%float; cbn; now rewrite ?E.
Qed.

(** Entry [i] of the analysis belongs to component [i]. *)
Lemma calculate_entry (st : session_state) (r : results.t) (i : nat) (c : comp.t) :
  calculate_circuit_parameters st = Ret r ->
  circuit_components st !! i = Some c ->
  exists e, results.component_analysis r !! i = Some e /\ visited c e.
Proof.
  intros Hr Hi. apply calculate_Ret in Hr as (r0 & Hloop & Hr).
  apply analyze_loop_entries in Hloop as (es & Hes & HF). cbn in Hes.
  apply overall_calculations_analysis in Hr as (-> & _).
  rewrite Hes. eapply Forall2_lookup_l in HF as (e & He & Hv); eauto.
Qed.

(** What the end of the analysis leaves in the result. *)
Lemma overall_calculations_fields (r0 r : results.t) :
  results.circuit_current r0 = None ->
  results.total_power r0 = None ->
  overall_calculations r0 = Ret r ->
  let total_voltage := py_sum (results.voltage_sources r) in
  let guard := results.voltage_sources r <> [] /\
               (0 <? results.total_resistance r)%float = true in
  (guard /\
   results.circuit_current r = Some (total_voltage / results.total_resistance r)%float /\
   results.total_power r =
     Some (total_voltage * (total_voltage / results.total_resistance r))%float) \/
  (~ guard /\ results.circuit_current r = None /\ results.total_power r = None).
Proof.
  intros Hi Hp Hr. rewrite overall_calculations_eq in Hr. injection Hr as <-.
  destruct (results.voltage_sources r0) as [|v vs] eqn:Hvs.
  - right. rewrite Hvs. split; [|auto]. now intros [? _].
  - destruct (0 <? results.total_resistance r0)%float eqn:Hpos.
    + left. cbn. rewrite Hvs, Hpos. auto.
    + right. rewrite Hpos. split; [|auto]. now intros [_ ?].
Qed.

(** C2 (as the program computes it): the analysis result holds
    'circuit_current' and 'total_power' exactly when 'voltage_sources'
    is not empty and 'total_resistance' is above zero; then
    circuit_current = sum(voltage_sources) / total_resistance and
    total_power = sum(voltage_sources) * circuit_current.  For the
    circuit of one Resistor (2000 ohm) and one Battery (9 V, 0.1 ohm):
    total_resistance = 2000, voltage_sources = [9], circuit_current =
    0.0045, the Resistor's voltage_drop = 2, and total_power is the
    binary64 product 9 * 0.0045 = 0.040499999999999994, which is the
    float next below 0.0405. *)
Theorem circuit_current_and_total_power (st : session_state) (r : results.t)
    (Hr : calculate_circuit_parameters st = Ret r) :
  let total_voltage := py_sum (results.voltage_sources r) in
  let guard := results.voltage_sources r <> [] /\
               (0 <? results.total_resistance r)%float = true in
  (is_Some (results.circuit_current r) <-> guard) /\
  (is_Some (results.total_power r) <-> guard) /\
  (guard ->
     results.circuit_current r = Some (total_voltage / results.total_resistance r)%float /\
     results.total_power r =
       Some (total_voltage * (total_voltage / results.total_resistance r))%float) /\
  calculate_circuit_parameters resistor_battery_circuit =
    Ret resistor_battery_result /\
  next_up 0.040499999999999994 = 0.0405%float.
Proof.
  cbv zeta.
  apply calculate_Ret in Hr as (r0 & Hloop & Hr).
  apply analyze_loop_frame in Hloop as [Hi Hp]. cbn in Hi, Hp.
  pose proof (overall_calculations_fields r0 r Hi Hp Hr) as H. cbv zeta in H.
  destruct H as [(Hg & Hc & Ht)|(Hg & Hc & Ht)].
  - rewrite Hc, Ht. split; [|split; [|split]].
    + split; eauto.
    + split; eauto.
    + auto.
    + split; vm_compute; reflexivity.
  - rewrite Hc, Ht. split; [|split; [|split]].
    + split; [intros [? [=]]|tauto].
    + split; [intros [? [=]]|tauto].
    + tauto.
    + split; vm_compute; reflexivity.
Qed.

Lemma circuit_current_and_total_power_witness :
  calculate_circuit_parameters resistor_battery_circuit = Ret resistor_battery_result /\
  (is_Some (results.circuit_current resistor_battery_result) <->
   results.voltage_sources resistor_battery_result <> [] /\
   (0 <? results.total_resistance resistor_battery_result)%float = true).
Proof.
  assert (Hr : calculate_circuit_parameters resistor_battery_circuit =
               Ret resistor_battery_result) by (vm_compute; reflexivity).
  split; [exact Hr|].
  exact (proj1 (circuit_current_and_total_power _ _ Hr)).
Defined.

(** C2 as stated, at the circuit of its scenario: the analysis does not
    return total_power = 0.0405; the product 9 * 0.0045 rounds to the
    float below it. *)
Lemma total_power_is_not_0_0405 :
  ~ exists r, calculate_circuit_parameters resistor_battery_circuit = Ret r /\
              results.total_power r = Some 0.0405%float.
Proof.
  intros (r & Hr & Hp).
  assert (Hv : calculate_circuit_parameters resistor_battery_circuit =
               Ret resistor_battery_result) by (vm_compute; reflexivity).
  rewrite Hv in Hr. injection Hr as <-.
  apply (f_equal (from_option (fun f => f) 0%float)) in Hp. cbn in Hp.
  revert Hp. apply float_neq; vm_compute; reflexivity.
Qed.

(** ** The shape of the parameters *)

Lemma lookup_params_known (table : list (string * gmap string value)) (name : string) :
  In name (map fst table) -> exists p, lookup_params table name = Ret p.
Proof.
  induction table as [|[n p] table IH]; cbn; [tauto|].
  intros Hin. destruct (String.eqb name n) eqn:E; [eauto|].
  destruct Hin as [->|Hin]; [|auto].
  rewrite String.eqb_refl in E. discriminate E.
Qed.

Lemma editor_form_dom (text : string -> string) (number : string -> float)
    (p : gmap string value) :
  dom (editor_form text number p) = dom p.
Proof.
  apply set_eq. intros k. rewrite !elem_of_dom. unfold editor_form.
  rewrite map_lookup_imap. destruct (p !! k) as [v|]; cbn; [|reflexivity].
  split; intros _; eauto.
Qed.

Lemma assign_params_Forall (P : comp.t -> Prop) (comp_id : Z)
    (new_params : gmap string value) (comps comps' : list comp.t) (c : comp.t) :
  find_component comp_id comps = Ret c ->
  assign_params comp_id new_params comps = Some comps' ->
  Forall P comps ->
  P (comp.mk (comp.id c) (comp.type c) (comp.x c) (comp.y c) new_params) ->
  Forall P comps'.
Proof.
  revert comps'. induction comps as [|c1 comps IH]; intros comps'; cbn; [discriminate|].
  destruct (decide (comp.id c1 = comp_id)).
  - intros [= ->] [= <-] HF HP. apply Forall_cons in HF as [_ HF]. now constructor.
  - intros Hf Ha HF HP. apply Forall_cons in HF as [H1 HF].
    destruct (assign_params comp_id new_params comps) as [l|]; [|discriminate].
    injection Ha as <-. constructor; [exact H1|]. now apply (IH l).
Qed.

(** Every component of a session has the keys of its catalog entry. *)
Lemma ui_reachable_catalog_shaped (st : session_state) :
  ui_reachable st -> Forall catalog_shaped (circuit_components st).
Proof.
  induction 1 as [|st ty x_pos y_pos _ IH Hin|st from_id to_id _ IH|st _ IH|st _ IH
                  |st comp_id c text number _ IH Hc].
  - constructor.
  - destruct (lookup_params_known COMPONENTS ty Hin) as [p Hp].
    unfold add_component. rewrite Hp. cbn. apply Forall_app. split; [exact IH|].
    constructor; [|constructor]. exists p. auto.
  - unfold connect_components. destruct (decide (from_id ≠ to_id)); [|exact IH].
    destruct (decide (conn.mk from_id to_id ∉ connections st)); exact IH.
  - constructor.
  - unfold analyze_circuit. destruct (circuit_components st) eqn:E;
      [cbn; rewrite E; exact IH|].
    destruct (calculate_circuit_parameters st); cbn; rewrite E; exact IH.
  - unfold update_parameters.
    destruct (assign_params comp_id _ (circuit_components st)) as [comps'|] eqn:Ha;
      [|exact IH].
    cbn. eapply assign_params_Forall; eauto.
    assert (Hshape : catalog_shaped c).
    { clear Ha. induction (circuit_components st) as [|c1 l IHl]; cbn in Hc; [discriminate|].
      apply Forall_cons in IH as [H1 Hl].
      destruct (decide (comp.id c1 = comp_id)); [now injection Hc as <-|auto]. }
    destruct Hshape as (p & Hp & Hdom). exists p. cbn. split; [exact Hp|].
    now rewrite editor_form_dom.
Qed.


(** ** The branches of the loop *)

Ltac enter_branch H Hty :=
  unfold analyze_type in H; rewrite Hty in H; simpl (String.eqb _ _) in H;
  cbv beta iota in H; unfold get_number in H.




Lemma load_branch (c : comp.t) (ra rb : results.t) calc :
  comp.type c = "Load" ->
  analyze_type c ra = Ret (rb, calc) ->
  exists power voltage,
    dict_get (comp.params c) "power" (VFloat 0) = VFloat power /\
    dict_get (comp.params c) "voltage" (VFloat 0) = VFloat voltage /\
    results.power_consumption rb = (results.power_consumption ra + power)%float /\
    calc = spec_load_calculated power voltage.
Proof.
  intros Hty H. enter_branch H Hty.
  apply bind_Ret in H as (power & Hp & H).
  apply bind_Ret in H as (voltage & Hv & H).
  apply to_number_Ret in Hp, Hv.
  exists power, voltage. unfold spec_load_calculated.
  destruct (0 <? voltage)%float.
  - apply bind_Ret in H as (current & Hc & H).
    apply bind_Ret in H as (resistance & Hre & H).
    apply py_truediv_Ret in Hc as [_ ->].
    destruct (0 <? power / voltage)%float.
    + apply py_truediv_Ret in Hre as [_ ->]. injection H as <- <-. auto.
    + injection Hre as <-. injection H as <- <-. auto.
  - injection H as <- <-. auto.
Qed.

(** C5 (as the program computes it): for every Load the analysis adds
    the power parameter to power_consumption whatever the voltage; the
    entry has a calculated dict exactly when voltage > 0, and then
    current = power / voltage and resistance = voltage / current, or
    +infinity whenever current > 0 does not hold: that is the case for
    power = 0 and also for a negative power.  A Load of 100 W at
    voltage 0 has no calculated dict and still adds 100 to
    power_consumption; a Load of -5 W at 12 V gets resistance
    +infinity. *)
Theorem load_analysis (c : comp.t) (Hty : comp.type c = "Load") :
  (forall r r', analyze_component c r = Ret r' ->
     exists power voltage,
       dict_get (comp.params c) "power" (VFloat 0) = VFloat power /\
       dict_get (comp.params c) "voltage" (VFloat 0) = VFloat voltage /\
       results.power_consumption r' = (results.power_consumption r + power)%float /\
       results.component_analysis r' =
         results.component_analysis r ++ [entry_of c (spec_load_calculated power voltage)] /\
       (is_Some (spec_load_calculated power voltage) <-> (0 <? voltage)%float = true)) /\
  (forall st r i,
     calculate_circuit_parameters st = Ret r ->
     circuit_components st !! i = Some c ->
     exists power voltage,
       dict_get (comp.params c) "power" (VFloat 0) = VFloat power /\
       dict_get (comp.params c) "voltage" (VFloat 0) = VFloat voltage /\
       results.component_analysis r !! i =
         Some (entry_of c (spec_load_calculated power voltage))) /\
  calculate_circuit_parameters load_circuit = Ret load_result /\
  calculate_circuit_parameters negative_load_circuit = Ret negative_load_result.
Proof.
  split; [|split; [|split]].
  - intros r r' H. apply analyze_component_Ret in H as (r1 & calc & Ht & ->).
    pose proof (analyze_type_frame _ _ _ _ Ht) as (_ & _ & Hca).
    destruct (load_branch _ _ _ _ Hty Ht) as (power & voltage & Hp & Hv & Hpc & ->).
    exists power, voltage. cbn. rewrite Hca. repeat split; auto.
    + unfold spec_load_calculated. destruct (0 <? voltage)%float; [auto|]. intros [? [=]].
    + unfold spec_load_calculated. intros ->. eauto.
  - intros st r i Hr Hi.
    destruct (calculate_entry _ _ _ _ Hr Hi) as (e & He & ra & rb & calc & Ht & ->).
    destruct (load_branch _ _ _ _ Hty Ht) as (power & voltage & Hp & Hv & _ & ->).
    exists power, voltage. auto.
  - vm_compute; reflexivity.
  - vm_compute; reflexivity.
Qed.

Lemma load_analysis_witness :
  let c := comp.mk 1 "Load" 2 2
             {[ "power" := VFloat 100.0; "voltage" := VFloat 0.0;
                "type" := VStr "Resistive" ]} in
  comp.type c = "Load" /\
  calculate_circuit_parameters load_circuit = Ret load_result /\
  circuit_components load_circuit !! 0%nat = Some c /\
  exists power voltage,
    dict_get (comp.params c) "power" (VFloat 0) = VFloat power /\
    dict_get (comp.params c) "voltage" (VFloat 0) = VFloat voltage /\
    results.component_analysis load_result !! 0%nat =
      Some (entry_of c (spec_load_calculated power voltage)).
Proof.
  cbv zeta. split; [reflexivity|]. split; [vm_compute; reflexivity|].
  split; [vm_compute; reflexivity|].
  apply (proj1 (proj2 (load_analysis
            (comp.mk 1 "Load" 2 2
               {[ "power" := VFloat 100.0; "voltage" := VFloat 0.0;
                  "type" := VStr "Resistive" ]}) eq_refl))
           load_circuit load_result 0%nat);
    vm_compute; reflexivity.
Defined.

(** C5 as stated, at a Load of -5 W and 12 V: the analysis gives it
    resistance +infinity because its current is not above zero, and
    its power is not zero. *)
Lemma infinite_resistance_with_negative_power :
  calculate_circuit_parameters negative_load_circuit = Ret negative_load_result /\
  calculated_at negative_load_result 0 "resistance" = Some infinity /\
  ~ (forall i c power voltage,
       circuit_components negative_load_circuit !! i = Some c ->
       comp.type c = "Load" ->
       dict_get (comp.params c) "power" (VFloat 0) = VFloat power ->
       dict_get (comp.params c) "voltage" (VFloat 0) = VFloat voltage ->
       (0 <? voltage)%float = true ->
       (power / voltage <=? 0)%float = true ->
       (power =? 0)%float = true).
Proof.
  split; [vm_compute; reflexivity|]. split; [vm_compute; reflexivity|].
  intros H.
  specialize (H 0%nat
    (comp.mk 1 "Load" 2 2
       {[ "power" := VFloat (-5.0); "voltage" := VFloat 12.0; "type" := VStr "Resistive" ]})
    (-5.0)%float 12.0%float).
  assert (Hf : ((-5.0 =? 0)%float = true)) by (apply H; vm_compute; reflexivity).
  vm_compute in Hf. discriminate Hf.
Qed.








(** ** The analysis is not total *)

(** C1 at a Battery whose internal resistance was edited to 0: the
    circuit is made of catalog types and is a state of a session (a
    Battery added, its internal resistance typed as 0 in the editor),
    and its analysis raises ZeroDivisionError instead of returning;
    the "Analyze Circuit" handler lets the exception escape and stores
    nothing. *)
Theorem analysis_raises_on_zero_internal_resistance :
  Forall (fun c => In (comp.type c) catalog_types)
         (circuit_components shorted_battery_circuit) /\
  ui_reachable shorted_battery_circuit /\
  calculate_circuit_parameters shorted_battery_circuit = Raise ZeroDivisionError /\
  handle AnalyzeCircuit shorted_battery_circuit =
    (shorted_battery_circuit, uncaught ZeroDivisionError).
Proof.
  split; [|split; [|split]].
  - vm_compute. constructor; [|constructor]. do 6 right. left. reflexivity.
  - pose (number := fun key : string =>
                      if String.eqb key "voltage" then 9.0%float
                      else if String.eqb key "capacity" then 1000.0%float
                      else 0.0%float).
    pose (battery := comp.mk 1 "Battery" 2 2
                       {[ "voltage" := VFloat 9.0; "capacity" := VFloat 1000.0;
                          "internal_resistance" := VFloat 0.1 ]}).
    change shorted_battery_circuit with
      (fst (update_parameters 1
              (editor_form (fun _ => EmptyString) number (comp.params battery))
              (fst (add_component "Battery" 2 2 initial_state)))).
    apply ui_update with (c := battery).
    + apply ui_add; [apply ui_initial|]. unfold catalog_types. cbn. auto 20.
    + vm_compute; reflexivity.
  - vm_compute; reflexivity.
  - vm_compute; reflexivity.
Qed.

(** ** Connections *)

Lemma connect_components_cases (a b : Z) (st : session_state) :
  (a = b /\ connect_components a b st = (st, SelfConnection)) \/
  (a <> b /\ (conn.mk a b ∈ connections st) /\
   connect_components a b st = (st, DuplicateConnection)) \/
  (a <> b /\ (conn.mk a b ∉ connections st) /\
   connect_components a b st =
     (set_connections (connections st ++ [conn.mk a b]) st, ConnectionCreated)).
Proof.
  unfold connect_components.
  destruct (decide (a ≠ b)) as [Hne|Heq].
  - destruct (decide (conn.mk a b ∉ connections st)) as [Hnin|Hin].
    + right. right. auto.
    + right. left. split; [auto|]. split; [|reflexivity].
      destruct (decide (conn.mk a b ∈ connections st)); tauto.
  - left. split; [|reflexivity]. destruct (decide (a = b)); tauto.
Qed.

(** Every handler keeps the connections free of self connections, so
    every state the session reaches is. *)
Lemma handle_no_self_connection (a : action) (st : session_state) :
  no_self_connection st -> no_self_connection (fst (handle a st)).
Proof.
  unfold no_self_connection. intros Hinv.
  destruct a as [ty x_pos y_pos|from_id to_id| | |comp_id new_params];
    cbn [handle].
  - unfold add_component. destruct (lookup_params COMPONENTS ty); exact Hinv.
  - destruct (connect_components_cases from_id to_id st)
      as [[_ ->]|[(_ & _ & ->)|(Hne & _ & ->)]]; cbn; auto.
    apply Forall_app. split; [exact Hinv|]. constructor; [exact Hne|constructor].
  - constructor.
  - unfold analyze_circuit. destruct (circuit_components st); [exact Hinv|].
    destruct (calculate_circuit_parameters st); exact Hinv.
  - unfold update_parameters.
    destruct (assign_params comp_id new_params (circuit_components st)); exact Hinv.
Qed.

Lemma run_no_self_connection (actions : list action) (st : session_state) :
  no_self_connection st -> no_self_connection (run actions st).
Proof.
  revert st. induction actions as [|a actions IH]; intros st Hinv; [exact Hinv|].
  cbn. apply IH. now apply handle_no_self_connection.
Qed.

Lemma initial_no_self_connection : no_self_connection initial_state.
Proof. constructor. Qed.



(** ** Allocation of ids *)

(** "Add Component" with a type of the catalog: the counter goes up by
    one and the new component, appended last, gets the new count. *)
Lemma add_component_known (ty : string) (x_pos y_pos : float) (st : session_state) :
  In ty catalog_types ->
  exists p,
    lookup_params COMPONENTS ty = Ret p /\
    add_component ty x_pos y_pos st =
      (mk_state (circuit_components st ++
                   [comp.mk (component_counter st + 1) ty x_pos y_pos p])
                (connections st) (analysis_results st) (component_counter st + 1),
       st_success ("Added " +:+ ty +:+ " to circuit!")).
Proof.
  intros Hin. destruct (lookup_params_known COMPONENTS ty Hin) as [p Hp].
  exists p. split; [exact Hp|]. unfold add_component. rewrite Hp. reflexivity.
Qed.

Lemma add_all_cons (ty : string) (x_pos y_pos : float)
    (adds : list (string * float * float)) (st : session_state) :
  add_all ((ty, x_pos, y_pos) :: adds) st =
  add_all adds (fst (add_component ty x_pos y_pos st)).
Proof. reflexivity. Qed.

Lemma add_all_ids (adds : list (string * float * float)) (st : session_state) :
  Forall (fun a => In a.1.1 catalog_types) adds ->
  exists new,
    circuit_components (add_all adds st) = circuit_components st ++ new /\
    map comp.id new = seqZ (component_counter st + 1) (Z.of_nat (length adds)) /\
    map comp.type new = map (fun a => a.1.1) adds /\
    component_counter (add_all adds st) = (component_counter st + Z.of_nat (length adds))%Z /\
    connections (add_all adds st) = connections st /\
    analysis_results (add_all adds st) = analysis_results st.
Proof.
  revert st. induction adds as [|[[ty x_pos] y_pos] adds IH]; intros st Hty.
  - exists []. cbn. rewrite app_nil_r, Z.add_0_r. repeat split; reflexivity.
  - apply Forall_cons in Hty as [Hin Hty]. cbn in Hin.
    destruct (add_component_known ty x_pos y_pos st Hin) as (p & _ & Hadd).
    rewrite add_all_cons, Hadd. cbn [fst].
    set (c := comp.mk (component_counter st + 1) ty x_pos y_pos p).
    destruct (IH (mk_state (circuit_components st ++ [c]) (connections st)
                    (analysis_results st) (component_counter st + 1)) Hty)
      as (new & Hc & Hid & Htys & Hn & Hconn & Hres).
    cbn in Hc, Hid, Hn, Hconn, Hres.
    exists (c :: new). rewrite Hc, Hn, Hconn, Hres, <- app_assoc.
    repeat split; auto.
    + cbn [map comp.id length]. rewrite (seqZ_cons (component_counter st + 1)) by lia.
      f_equal. rewrite Hid. f_equal; lia.
    + cbn. now rewrite Htys.
    + cbn [length]. lia.
Qed.

(** C6: from the empty circuit, adding N components of any types of
    the catalog gives them the ids 1, 2, ..., N in the order of the
    additions; each addition increments the counter first and uses the
    new count as the id; "Clear Circuit" empties the components and the
    connections and resets the counter to 0, so the ids start from 1
    again after it. *)
Theorem ids_are_allocated_in_order (adds : list (string * float * float))
    (Hty : Forall (fun a => In a.1.1 catalog_types) adds) :
  map comp.id (circuit_components (add_all adds initial_state)) =
    seqZ 1 (Z.of_nat (length adds)) /\
  map comp.type (circuit_components (add_all adds initial_state)) =
    map (fun a => a.1.1) adds /\
  (forall ty x_pos y_pos st,
     In ty catalog_types ->
     let st' := fst (add_component ty x_pos y_pos st) in
     component_counter st' = (component_counter st + 1)%Z /\
     exists c, circuit_components st' = circuit_components st ++ [c] /\
               comp.id c = component_counter st' /\ comp.type c = ty) /\
  (forall st,
     let cleared := fst (clear_circuit st) in
     circuit_components cleared = [] /\
     connections cleared = [] /\
     component_counter cleared = 0%Z /\
     map comp.id (circuit_components (add_all adds cleared)) =
       seqZ 1 (Z.of_nat (length adds))).
Proof.
  split; [|split; [|split]].
  - destruct (add_all_ids adds initial_state Hty) as (new & -> & Hid & _). exact Hid.
  - destruct (add_all_ids adds initial_state Hty) as (new & -> & _ & Htys & _). exact Htys.
  - intros ty x_pos y_pos st Hin. cbv zeta.
    destruct (add_component_known ty x_pos y_pos st Hin) as (p & _ & ->). cbn.
    split; [reflexivity|]. eexists. split; [reflexivity|]. auto.
  - intros st. cbv zeta. cbn [clear_circuit fst]. repeat split.
    destruct (add_all_ids adds
                (set_component_counter 0 (set_connections [] (set_circuit_components [] st)))
                Hty) as (new & -> & Hid & _).
    exact Hid.
Qed.

Lemma ids_are_allocated_in_order_witness :
  Forall (fun a => In a.1.1 catalog_types)
    [ ("Resistor", 2%float, 2%float); ("Transistor (NPN)", 4%float, 2%float);
      ("Ground", 6%float, 1%float) ] /\
  map comp.id
    (circuit_components
       (add_all [ ("Resistor", 2%float, 2%float); ("Transistor (NPN)", 4%float, 2%float);
                  ("Ground", 6%float, 1%float) ] initial_state)) = [1; 2; 3]%Z.
Proof.
  assert (H : Forall (fun a => In a.1.1 catalog_types)
                [ ("Resistor", 2%float, 2%float); ("Transistor (NPN)", 4%float, 2%float);
                  ("Ground", 6%float, 1%float) ]).
  { repeat apply Forall_cons; try apply Forall_nil; unfold catalog_types; cbn; auto 20. }
  split; [exact H|].
  exact (proj1 (ids_are_allocated_in_order _ H)).
Defined.

(** ** Editing parameters *)


Lemma find_component_Raise (comp_id : Z) (comps : list comp.t) (e : exn) :
  find_component comp_id comps = Raise e ->
  e = StopIteration /\ Forall (fun c => comp.id c <> comp_id) comps.
Proof.
  induction comps as [|c comps IH]; cbn.
  - intros [= <-]. split; [reflexivity|constructor].
  - destruct (decide (comp.id c = comp_id)); [discriminate|].
    intros H. apply IH in H as [-> H]. split; [reflexivity|]. now constructor.
Qed.




(** ** Clearing and the stored analysis *)

(** C9: "Clear Circuit" empties the components and the connections and
    resets the counter to 0, and leaves the stored analysis as it was;
    no handler but "Analyze Circuit" writes the stored analysis, and
    that one only for a circuit with components whose analysis returns,
    so the old result stays, stale, until then. *)
Theorem clear_keeps_analysis_results (st : session_state) :
  circuit_components (fst (clear_circuit st)) = [] /\
  connections (fst (clear_circuit st)) = [] /\
  component_counter (fst (clear_circuit st)) = 0%Z /\
  analysis_results (fst (clear_circuit st)) = analysis_results st /\
  (forall a, a <> AnalyzeCircuit ->
             analysis_results (fst (handle a st)) = analysis_results st) /\
  analysis_results (fst (handle AnalyzeCircuit (fst (clear_circuit st)))) =
    analysis_results st /\
  (forall r, circuit_components st <> [] ->
             calculate_circuit_parameters st = Ret r ->
             analysis_results (fst (handle AnalyzeCircuit st)) = Some r) /\
  (analysis_results cleared_after_analysis = Some resistor_battery_result /\
   circuit_components cleared_after_analysis = []).
Proof.
  repeat split.
  - intros a Ha. destruct a as [ty x_pos y_pos|from_id to_id| | |comp_id new_params];
      cbn [handle].
    + unfold add_component. destruct (lookup_params COMPONENTS ty); reflexivity.
    + destruct (connect_components_cases from_id to_id st)
        as [[_ ->]|[(_ & _ & ->)|(_ & _ & ->)]]; reflexivity.
    + reflexivity.
    + congruence.
    + unfold update_parameters.
      destruct (assign_params comp_id new_params (circuit_components st)); reflexivity.
  - intros r Hne Hr. cbn [handle]. unfold analyze_circuit.
    destruct (circuit_components st); [congruence|]. rewrite Hr. reflexivity.
Qed.

Lemma clear_keeps_analysis_results_witness :
  ClearCircuit <> AnalyzeCircuit /\
  analysis_results (fst (handle ClearCircuit (run [AnalyzeCircuit] resistor_battery_circuit))) =
    analysis_results (run [AnalyzeCircuit] resistor_battery_circuit) /\
  analysis_results (run [AnalyzeCircuit] resistor_battery_circuit) =
    Some resistor_battery_result.
Proof.
  assert (Hne : ClearCircuit <> AnalyzeCircuit) by discriminate.
  split; [exact Hne|]. split; [|vm_compute; reflexivity].
  exact (proj1 (proj2 (proj2 (proj2 (proj2
           (clear_keeps_analysis_results (run [AnalyzeCircuit] resistor_battery_circuit))))))
           ClearCircuit Hne).
Defined.

(** ** The analysis and the connections *)

(** C10: the analysis is a function of the component sequence alone:
    two sessions with the same components get the same outcome
    whatever their connections (and counters, and stored results), and
    "Analyze Circuit" leaves the connections, the components and the
    counter as they were. *)
Theorem analysis_ignores_connections (st1 st2 : session_state)
    (Hcomps : circuit_components st1 = circuit_components st2) :
  calculate_circuit_parameters st1 = calculate_circuit_parameters st2 /\
  (forall conns, calculate_circuit_parameters (set_connections conns st1) =
                 calculate_circuit_parameters st1) /\
  connections (fst (analyze_circuit st1)) = connections st1 /\
  circuit_components (fst (analyze_circuit st1)) = circuit_components st1 /\
  component_counter (fst (analyze_circuit st1)) = component_counter st1.
Proof.
  split; [|split].
  - unfold calculate_circuit_parameters. now rewrite Hcomps.
  - reflexivity.
  - unfold analyze_circuit. destruct (circuit_components st1) eqn:E.
    + cbn. auto.
    + destruct (calculate_circuit_parameters st1); cbn; rewrite ?E; auto.
Qed.

Lemma analysis_ignores_connections_witness :
  circuit_components resistor_battery_circuit = circuit_components connected_circuit /\
  connections resistor_battery_circuit = [] /\
  connections connected_circuit = [conn.mk 1 2] /\
  calculate_circuit_parameters resistor_battery_circuit =
    calculate_circuit_parameters connected_circuit.
Proof.
  assert (H : circuit_components resistor_battery_circuit =
              circuit_components connected_circuit) by (vm_compute; reflexivity).
  split; [exact H|]. split; [vm_compute; reflexivity|]. split; [vm_compute; reflexivity|].
  exact (proj1 (analysis_ignores_connections _ _ H)).
Defined.

(** * Further properties of the analysis *)

(** ** Resistors, inductors and the types without a branch *)

Lemma py_pow2_milli : py_pow2 0.001 = Ret (0.001 * 0.001)%float.
Proof. vm_compute; reflexivity. Qed.

Lemma get_number_float (p : gmap string value) (key : string) (dflt f : float) :
  dict_get p key (VFloat dflt) = VFloat f -> get_number p key dflt = Ret f.
Proof. unfold get_number. now intros ->. Qed.

Lemma get_number_string (p : gmap string value) (key : string) (dflt : float) (s : string) :
  dict_get p key (VFloat dflt) = VStr s -> get_number p key dflt = Raise TypeError.
Proof. unfold get_number. now intros ->. Qed.

(** The iteration for a Resistor, whatever the totals so far: a number
    (or a missing key, read as 0) is added to total_resistance and the
    entry holds the dissipation and the drop at 1 mA; the iteration
    cannot raise unless the resistance is a string. *)
Theorem resistor_analysis (c : comp.t) (Hty : comp.type c = "Resistor") :
  (forall r resistance,
     dict_get (comp.params c) "resistance" (VFloat 0) = VFloat resistance ->
     analyze_component c r =
       Ret (set_component_analysis
              (results.component_analysis r ++
                 [entry_of c (Some (spec_resistor_calculated resistance))])
              (set_total_resistance (results.total_resistance r + resistance)%float r))) /\
  (forall r s,
     dict_get (comp.params c) "resistance" (VFloat 0) = VStr s ->
     analyze_component c r = Raise TypeError) /\
  (forall st r i,
     calculate_circuit_parameters st = Ret r ->
     circuit_components st !! i = Some c ->
     exists resistance,
       dict_get (comp.params c) "resistance" (VFloat 0) = VFloat resistance /\
       results.component_analysis r !! i =
         Some (entry_of c (Some (spec_resistor_calculated resistance)))).
Proof.
  assert (Hbranch : forall r,
            analyze_type c r =
            get_number (comp.params c) "resistance" 0 ≫= fun resistance =>
              Ret (set_total_resistance (results.total_resistance r + resistance)%float r,
                   Some (spec_resistor_calculated resistance))).
  { intros r. unfold analyze_type. rewrite Hty. simpl (String.eqb _ _). cbv beta iota.
    destruct (get_number (comp.params c) "resistance" 0); [|reflexivity].
    cbn [mbind outcome_bind]. rewrite py_pow2_milli. reflexivity. }
  split; [|split].
  - intros r resistance H. unfold analyze_component.
    rewrite Hbranch, (get_number_float _ _ _ _ H). reflexivity.
  - intros r s H. unfold analyze_component.
    rewrite Hbranch, (get_number_string _ _ _ _ H). reflexivity.
  - intros st r i Hr Hi.
    destruct (calculate_entry _ _ _ _ Hr Hi) as (e & He & ra & rb & calc & Ht & ->).
    rewrite Hbranch in Ht. apply bind_Ret in Ht as (resistance & Hn & Ht).
    apply to_number_Ret in Hn. injection Ht as _ <-. eauto.
Qed.

Lemma resistor_analysis_witness :
  let c := comp.mk 1 "Resistor" 2 2
             {[ "resistance" := VFloat 2000.0; "power_rating" := VFloat 0.25;
                "tolerance" := VFloat 5.0 ]} in
  comp.type c = "Resistor" /\
  dict_get (comp.params c) "resistance" (VFloat 0) = VFloat 2000.0 /\
  analyze_component c empty_results =
    Ret (set_component_analysis
           [entry_of c (Some (spec_resistor_calculated 2000.0))]
           (set_total_resistance (0 + 2000.0)%float empty_results)).
Proof.
  cbv zeta. split; [reflexivity|]. split; [reflexivity|].
  apply (proj1 (resistor_analysis
                  (comp.mk 1 "Resistor" 2 2
                     {[ "resistance" := VFloat 2000.0; "power_rating" := VFloat 0.25;
                        "tolerance" := VFloat 5.0 ]}) eq_refl) empty_results 2000.0%float).
  reflexivity.
Defined.



Lemma not_analyzed_type (c : comp.t) :
  ~ In (comp.type c) analyzed_types ->
  String.eqb (comp.type c) "Resistor" = false /\
  String.eqb (comp.type c) "Capacitor" = false /\
  String.eqb (comp.type c) "Inductor" = false /\
  is_source c = false /\
  String.eqb (comp.type c) "Load" = false.
Proof.
  intros Hnot. unfold is_source.
  assert (H : forall name, In name analyzed_types -> String.eqb (comp.type c) name = false).
  { intros name Hin. apply String.eqb_neq. intros Heq. apply Hnot. now rewrite Heq. }
  rewrite !H; unfold analyzed_types; cbn; auto 10.
Qed.

(** A component of any other type (in the catalog: Diode, LED,
    Transistor (NPN), Ground, Switch, Ammeter, Voltmeter) is only
    listed: the iteration returns whatever its parameters hold, changes
    no total and no voltage source, and appends an entry without a
    'calculated' dict. *)
Theorem other_types_are_only_listed (c : comp.t)
    (Hty : ~ In (comp.type c) analyzed_types) :
  (forall r, analyze_component c r =
             Ret (set_component_analysis
                    (results.component_analysis r ++ [entry_of c None]) r)) /\
  (forall ty, In ty catalog_types ->
     (~ In ty analyzed_types <->
      In ty ["Diode"; "LED"; "Transistor (NPN)"; "Ground"; "Switch"; "Ammeter";
             "Voltmeter"])).
Proof.
  split.
  - intros r. destruct (not_analyzed_type c Hty) as (H1 & H2 & H3 & H4 & H5).
    unfold is_source in H4. unfold analyze_component, analyze_type.
    rewrite H1, H2, H3, H4, H5. reflexivity.
  - intros ty Hin. unfold catalog_types in Hin. cbn in Hin.
    unfold analyzed_types.
    repeat (destruct Hin as [<-|Hin];
            [split; [intros H; cbn in *; tauto || auto 20
                    |intros H [E|[E|[E|[E|[E|[E|[]]]]]]];
                     first [discriminate E
                           |cbn in H; repeat (destruct H as [H|H]; [discriminate H|]);
                            exact H]]|]).
    destruct Hin.
Qed.

Lemma other_types_are_only_listed_witness :
  let c := comp.mk 3 "Switch" 2 2 {[ "state" := VStr "Open";
                                     "contact_resistance" := VStr "low" ]} in
  ~ In (comp.type c) analyzed_types /\
  analyze_component c empty_results =
    Ret (set_component_analysis [entry_of c None] empty_results).
Proof.
  cbv zeta.
  assert (H : ~ In "Switch" analyzed_types).
  { unfold analyzed_types. cbn. intros [E|[E|[E|[E|[E|[E|[]]]]]]]; discriminate E. }
  split; [exact H|].
  exact (proj1 (other_types_are_only_listed
                  (comp.mk 3 "Switch" 2 2 {[ "state" := VStr "Open";
                                             "contact_resistance" := VStr "low" ]}) H)
           empty_results).
Defined.

(** ** The shape of the result *)

(** When the analysis returns, 'component_analysis' has one entry per
    component, in the order of the components, each with the id, the
    type and the params of its component. *)
Theorem one_entry_per_component (st : session_state) (r : results.t)
    (Hr : calculate_circuit_parameters st = Ret r) :
  length (results.component_analysis r) = length (circuit_components st) /\
  map entry.id (results.component_analysis r) = map comp.id (circuit_components st) /\
  map entry.type (results.component_analysis r) = map comp.type (circuit_components st) /\
  map entry.parameters (results.component_analysis r) =
    map comp.params (circuit_components st).
Proof.
  apply calculate_Ret in Hr as (r0 & Hloop & Hr).
  apply analyze_loop_entries in Hloop as (es & Hes & HF). cbn in Hes.
  apply overall_calculations_analysis in Hr as (-> & _). rewrite Hes. clear Hes.
  induction HF as [|c e comps es (ra & rb & calc & _ & ->) _ IH]; [auto|].
  destruct IH as (Hlen & Hid & Hty & Hpar). cbn.
  now rewrite Hlen, Hid, Hty, Hpar.
Qed.

Lemma one_entry_per_component_witness :
  calculate_circuit_parameters two_sources_circuit = Ret two_sources_result /\
  map entry.id (results.component_analysis two_sources_result) =
    map comp.id (circuit_components two_sources_circuit).
Proof.
  assert (Hr : calculate_circuit_parameters two_sources_circuit = Ret two_sources_result)
    by (vm_compute; reflexivity).
  split; [exact Hr|].
  exact (proj1 (proj2 (one_entry_per_component _ _ Hr))).
Defined.

(** ** The totals *)

(** What one branch does to the four totals. *)
Lemma analyze_type_totals (c : comp.t) (r r' : results.t) calc :
  analyze_type c r = Ret (r', calc) ->
  results.total_resistance r' =
    (if has_type "Resistor" c
     then (results.total_resistance r + param_number c "resistance")%float
     else results.total_resistance r) /\
  results.total_capacitance r' =
    (if has_type "Capacitor" c && (0 <? param_number c "capacitance")%float
     then (results.total_capacitance r + param_number c "capacitance")%float
     else results.total_capacitance r) /\
  results.total_inductance r' =
    (if has_type "Inductor" c
     then (results.total_inductance r + param_number c "inductance")%float
     else results.total_inductance r) /\
  results.power_consumption r' =
    (if has_type "Load" c
     then (results.power_consumption r + param_number c "power")%float
     else results.power_consumption r).
Proof.
  unfold analyze_type, has_type, get_number, param_number. intros H.
  destruct (String.eqb (comp.type c) "Resistor") eqn:E1.
  { apply String.eqb_eq in E1. rewrite E1. simpl (String.eqb _ _).
    apply bind_Ret in H as (a & Ha & H). apply to_number_Ret in Ha. rewrite Ha.
    split_run. cbn. auto. }
  destruct (String.eqb (comp.type c) "Capacitor") eqn:E2.
  { apply String.eqb_eq in E2. rewrite E2. simpl (String.eqb _ _).
    apply bind_Ret in H as (a & Ha & H). apply to_number_Ret in Ha. rewrite Ha.
    cbn [andb]. destruct (0 <? a)%float; split_run; cbn; auto. }
  destruct (String.eqb (comp.type c) "Inductor") eqn:E3.
  { apply String.eqb_eq in E3. rewrite E3. simpl (String.eqb _ _).
    apply bind_Ret in H as (a & Ha & H). apply to_number_Ret in Ha. rewrite Ha.
    split_run. cbn. auto. }
  destruct (String.eqb (comp.type c) "Battery" || String.eqb (comp.type c) "AC Source")
    eqn:E4.
  { assert (E5 : String.eqb (comp.type c) "Load" = false).
    { apply String.eqb_neq. intros E. rewrite E in E4. discriminate E4. }
    rewrite E5. split_run. cbn. auto. }
  destruct (String.eqb (comp.type c) "Load") eqn:E5.
  { apply bind_Ret in H as (a & Ha & H). apply to_number_Ret in Ha. rewrite Ha.
    split_run; cbn; auto. }
  injection H as <- _. auto.
Qed.

Lemma analyze_loop_totals (comps : list comp.t) (r0 r : results.t) :
  analyze_loop comps r0 = Ret r ->
  results.total_resistance r =
    fold_left PrimFloat.add
      (map (fun c => param_number c "resistance") (List.filter (has_type "Resistor") comps))
      (results.total_resistance r0) /\
  results.total_capacitance r =
    fold_left PrimFloat.add
      (map (fun c => param_number c "capacitance")
         (List.filter (fun c => has_type "Capacitor" c &&
                                (0 <? param_number c "capacitance")%float) comps))
      (results.total_capacitance r0) /\
  results.total_inductance r =
    fold_left PrimFloat.add
      (map (fun c => param_number c "inductance") (List.filter (has_type "Inductor") comps))
      (results.total_inductance r0) /\
  results.power_consumption r =
    fold_left PrimFloat.add
      (map (fun c => param_number c "power") (List.filter (has_type "Load") comps))
      (results.power_consumption r0).
Proof.
  revert r0. induction comps as [|c comps IH]; intros r0 H; cbn in H.
  - injection H as <-. cbn. auto.
  - apply bind_Ret in H as (r2 & Hc & H).
    apply analyze_component_Ret in Hc as (r1 & calc & Ht & ->).
    apply IH in H as (Hr & Hcap & Hl & Hp). cbn in Hr, Hcap, Hl, Hp.
    apply analyze_type_totals in Ht as (Tr & Tc & Tl & Tp).
    rewrite Hr, Hcap, Hl, Hp, Tr, Tc, Tl, Tp. cbn [List.filter].
    repeat split.
    + destruct (has_type "Resistor" c); reflexivity.
    + destruct (has_type "Capacitor" c && (0 <? param_number c "capacitance")%float);
        reflexivity.
    + destruct (has_type "Inductor" c); reflexivity.
    + destruct (has_type "Load" c); reflexivity.
Qed.

(** When the analysis returns, each total is the sum, from zero and in
    the order of the components, over the components of one type only:
    total_resistance over the Resistors (the 'resistance' of an
    Inductor, the internal resistance of a Battery and the contact
    resistance of a Switch never enter it), total_inductance over the
    Inductors, power_consumption over the Loads, total_capacitance over
    the Capacitors whose capacitance is above zero. *)
Theorem totals_are_sums_by_type (st : session_state) (r : results.t)
    (Hr : calculate_circuit_parameters st = Ret r) :
  results.total_resistance r =
    py_sum (map (fun c => param_number c "resistance")
              (List.filter (has_type "Resistor") (circuit_components st))) /\
  results.total_capacitance r =
    py_sum (map (fun c => param_number c "capacitance")
              (List.filter (fun c => has_type "Capacitor" c &&
                                     (0 <? param_number c "capacitance")%float)
                 (circuit_components st))) /\
  results.total_inductance r =
    py_sum (map (fun c => param_number c "inductance")
              (List.filter (has_type "Inductor") (circuit_components st))) /\
  results.power_consumption r =
    py_sum (map (fun c => param_number c "power")
              (List.filter (has_type "Load") (circuit_components st))).
Proof.
  apply calculate_Ret in Hr as (r0 & Hloop & Hr).
  apply analyze_loop_totals in Hloop as (H1 & H2 & H3 & H4).
  change (results.total_resistance empty_results) with 0%float in H1.
  change (results.total_capacitance empty_results) with 0%float in H2.
  change (results.total_inductance empty_results) with 0%float in H3.
  change (results.power_consumption empty_results) with 0%float in H4.
  rewrite overall_calculations_eq in Hr. injection Hr as <-.
  unfold py_sum. rewrite <- H1, <- H2, <- H3, <- H4.
  destruct (results.voltage_sources r0); [auto|].
  destruct (0 <? results.total_resistance r0)%float; auto.
Qed.

(** An Inductor with its 0.1 ohm and a Battery with its 0.1 ohm beside
    a Resistor of 2000 ohm. *)
Lemma totals_are_sums_by_type_witness :
  let st := run [ AddComponent "Inductor" 1 1; AddComponent "Battery" 2 2;
                  AddComponent "Resistor" 3 3; AddComponent "Resistor" 4 4 ]
                initial_state in
  exists r, calculate_circuit_parameters st = Ret r /\
            results.total_resistance r = py_sum [1000.0; 1000.0]%float.
Proof.
  cbv zeta.
  destruct (calculate_circuit_parameters
              (run [ AddComponent "Inductor" 1 1; AddComponent "Battery" 2 2;
                     AddComponent "Resistor" 3 3; AddComponent "Resistor" 4 4 ]
                 initial_state)) as [r|e] eqn:Hr.
  - exists r. split; [reflexivity|].
    rewrite (proj1 (totals_are_sums_by_type _ _ Hr)). vm_compute; reflexivity.
  - exfalso. vm_compute in Hr. discriminate Hr.
Defined.

(** ** The guards of the Load branch *)

(** The iteration for a Load whose power and voltage are numbers
    always returns: both divisions sit behind a [> 0] test, and a
    divisor above zero is not zero. *)
Theorem load_analysis_returns (c : comp.t) (Hty : comp.type c = "Load")
    (r : results.t) (power voltage : float)
    (Hp : dict_get (comp.params c) "power" (VFloat 0) = VFloat power)
    (Hv : dict_get (comp.params c) "voltage" (VFloat 0) = VFloat voltage) :
  analyze_component c r =
    Ret (set_component_analysis
           (results.component_analysis r ++ [entry_of c (spec_load_calculated power voltage)])
           (set_power_consumption (results.power_consumption r + power)%float r)).
Proof.
  unfold analyze_component, analyze_type. rewrite Hty. simpl (String.eqb _ _).
  cbv beta iota. rewrite (get_number_float _ _ _ _ Hp). cbn [mbind outcome_bind].
  rewrite (get_number_float _ _ _ _ Hv). cbn [mbind outcome_bind].
  unfold spec_load_calculated.
  destruct (0 <? voltage)%float eqn:Hpos; [|reflexivity].
  rewrite (py_truediv_pos _ _ Hpos). cbn [mbind outcome_bind].
  destruct (0 <? power / voltage)%float eqn:Hcur; [|reflexivity].
  rewrite (py_truediv_pos _ _ Hcur). reflexivity.
Qed.

Lemma load_analysis_returns_witness :
  let c := comp.mk 1 "Load" 2 2
             {[ "power" := VFloat 100.0; "voltage" := VFloat 12.0;
                "type" := VStr "Resistive" ]} in
  comp.type c = "Load" /\
  dict_get (comp.params c) "power" (VFloat 0) = VFloat 100.0 /\
  dict_get (comp.params c) "voltage" (VFloat 0) = VFloat 12.0 /\
  analyze_component c empty_results =
    Ret (set_component_analysis [entry_of c (spec_load_calculated 100.0 12.0)]
           (set_power_consumption (0 + 100.0)%float empty_results)).
Proof.
  cbv zeta.
  set (c := comp.mk 1 "Load" 2 2
              {[ "power" := VFloat 100.0; "voltage" := VFloat 12.0;
                 "type" := VStr "Resistive" ]}).
  assert (Hp : dict_get (comp.params c) "power" (VFloat 0) = VFloat 100.0)
    by (vm_compute; reflexivity).
  assert (Hv : dict_get (comp.params c) "voltage" (VFloat 0) = VFloat 12.0)
    by (vm_compute; reflexivity).
  split; [reflexivity|]. split; [exact Hp|]. split; [exact Hv|].
  exact (load_analysis_returns c eq_refl empty_results _ _ Hp Hv).
Defined.

(** ** Numbers stay numbers *)

Lemma editor_form_kind (text : string -> string) (number : string -> float)
    (p : gmap string value) (key : string) :
  is_number <$> (editor_form text number p !! key) = is_number <$> (p !! key).
Proof.
  unfold editor_form. rewrite map_lookup_imap.
  destruct (p !! key) as [[f|s]|]; reflexivity.
Qed.

(** In every state of a session each component has exactly the keys of
    its catalog entry, with a number where the entry has a number and a
    string where it has a string: adding copies the entry, and the
    editor form builds the new dict key by key from the old one. *)
Theorem session_params_follow_catalog (st : session_state) (Hst : ui_reachable st) :
  Forall catalog_typed (circuit_components st).
Proof.
  induction Hst as [|st ty x_pos y_pos _ IH Hin|st from_id to_id _ IH|st _ IH|st _ IH
                    |st comp_id c text number _ IH Hc].
  - constructor.
  - destruct (lookup_params_known COMPONENTS ty Hin) as [p Hp].
    unfold add_component. rewrite Hp. cbn. apply Forall_app. split; [exact IH|].
    constructor; [|constructor]. exists p. auto.
  - unfold connect_components. destruct (decide (from_id ≠ to_id)); [|exact IH].
    destruct (decide (conn.mk from_id to_id ∉ connections st)); exact IH.
  - constructor.
  - unfold analyze_circuit. destruct (circuit_components st) eqn:E;
      [cbn; rewrite E; exact IH|].
    destruct (calculate_circuit_parameters st); cbn; rewrite E; exact IH.
  - unfold update_parameters.
    destruct (assign_params comp_id _ (circuit_components st)) as [comps'|] eqn:Ha;
      [|exact IH].
    cbn. eapply assign_params_Forall; eauto.
    assert (Hshape : catalog_typed c).
    { clear Ha. induction (circuit_components st) as [|c1 l IHl]; cbn in Hc; [discriminate|].
      apply Forall_cons in IH as [H1 Hl].
      destruct (decide (comp.id c1 = comp_id)); [now injection Hc as <-|auto]. }
    destruct Hshape as (p & Hp & Hkind). exists p. cbn. split; [exact Hp|].
    intros key. now rewrite editor_form_kind.
Qed.

Lemma session_params_follow_catalog_witness :
  ui_reachable (fst (add_component "Capacitor" 2 2 initial_state)) /\
  Forall catalog_typed (circuit_components (fst (add_component "Capacitor" 2 2 initial_state))).
Proof.
  assert (H : ui_reachable (fst (add_component "Capacitor" 2 2 initial_state))).
  { apply ui_add; [apply ui_initial|]. unfold catalog_types. cbn. auto 20. }
  split; [exact H|]. exact (session_params_follow_catalog _ H).
Defined.

(** ** What the analysis can raise *)














(** * Further properties of the handlers *)

(** ** Ids *)

Lemma assign_params_ids (comp_id : Z) (new_params : gmap string value)
    (comps comps' : list comp.t) :
  assign_params comp_id new_params comps = Some comps' ->
  map comp.id comps' = map comp.id comps.
Proof.
  revert comps'. induction comps as [|c comps IH]; intros comps'; cbn; [discriminate|].
  destruct (decide (comp.id c = comp_id)).
  - now intros [= <-].
  - destruct (assign_params comp_id new_params comps) as [l|]; [|discriminate].
    intros [= <-]. cbn. f_equal. now apply IH.
Qed.

Lemma handle_circuit_ids (a : action) (st : session_state) :
  (map comp.id (circuit_components (fst (handle a st))) = map comp.id (circuit_components st) /\
   (component_counter st <= component_counter (fst (handle a st)))%Z) \/
  (circuit_components (fst (handle a st)) = [] /\
   component_counter (fst (handle a st)) = 0%Z) \/
  (exists c, circuit_components (fst (handle a st)) = circuit_components st ++ [c] /\
             comp.id c = (component_counter st + 1)%Z /\
             component_counter (fst (handle a st)) = (component_counter st + 1)%Z).
Proof.
  destruct a as [ty x_pos y_pos|from_id to_id| | |comp_id new_params]; cbn [handle].
  - unfold add_component. destruct (lookup_params COMPONENTS ty) as [p|e]; cbn.
    + right. right. eexists. split; [reflexivity|]. auto.
    + left. split; [reflexivity|lia].
  - left. destruct (connect_components_cases from_id to_id st)
      as [[_ ->]|[(_ & _ & ->)|(_ & _ & ->)]]; cbn; split; auto; lia.
  - right. left. auto.
  - left. unfold analyze_circuit. destruct (circuit_components st) eqn:E.
    + cbn. rewrite E. split; [reflexivity|lia].
    + destruct (calculate_circuit_parameters st); cbn; rewrite E; split; auto; lia.
  - left. unfold update_parameters.
    destruct (assign_params comp_id new_params (circuit_components st)) as [l|] eqn:E; cbn.
    + split; [exact (assign_params_ids _ _ _ _ E)|lia].
    + split; [reflexivity|lia].
Qed.

Lemma handle_ids_allocated (a : action) (st : session_state) :
  ids_allocated st -> ids_allocated (fst (handle a st)).
Proof.
  unfold ids_allocated. intros (Hpos & Hrange & Hdup).
  destruct (handle_circuit_ids a st) as [[Hids Hle]|[[-> ->]|(c & -> & Hid & ->)]].
  - rewrite Hids. split; [lia|]. split; [|exact Hdup].
    assert (Hr : Forall (fun i => (1 <= i <= component_counter st)%Z)
                   (map comp.id (circuit_components st))).
    { rewrite Forall_map. exact Hrange. }
    rewrite <- Hids in Hr. rewrite Forall_map in Hr.
    eapply Forall_impl; [exact Hr|]. cbn. intros; lia.
  - split; [lia|]. split; constructor.
  - split; [lia|]. split.
    + apply Forall_app. split.
      * eapply Forall_impl; [exact Hrange|]. cbn. intros; lia.
      * constructor; [lia|constructor].
    + rewrite map_app. cbn. apply NoDup_app. split; [exact Hdup|]. split.
      * intros i Hi Hi'. apply list_elem_of_singleton in Hi'. subst i.
        rewrite Forall_forall in Hrange.
        apply list_elem_of_fmap in Hi as (c0 & Hc0id & Hc0). specialize (Hrange _ Hc0). lia.
      * apply NoDup_singleton.
Qed.

(** Whatever the user does, from the start of a session on, the ids of
    the components stay distinct and between 1 and the counter: an id
    is never given twice, not even after parameters are edited, and a
    clear empties the list before it resets the counter. *)
Theorem ids_stay_distinct (actions : list action) :
  ids_allocated (run actions initial_state).
Proof.
  assert (H : forall st, ids_allocated st -> ids_allocated (run actions st)).
  { induction actions as [|a actions IH]; intros st Hst; [exact Hst|].
    cbn. apply IH. now apply handle_ids_allocated. }
  apply H. split; [cbn; lia|]. split; constructor.
Qed.

(** ** Looking a component up by its id *)

Lemma find_component_Ret (comp_id : Z) (comps : list comp.t) (c : comp.t) :
  find_component comp_id comps = Ret c -> In c comps /\ comp.id c = comp_id.
Proof.
  induction comps as [|c1 comps IH]; cbn; [discriminate|].
  destruct (decide (comp.id c1 = comp_id)).
  - intros [= ->]. auto.
  - intros H. apply IH in H as [? ?]. auto.
Qed.

Lemma find_component_present (comp_id : Z) (comps : list comp.t) :
  In comp_id (map comp.id comps) -> exists c, find_component comp_id comps = Ret c.
Proof.
  induction comps as [|c1 comps IH]; cbn; [tauto|].
  destruct (decide (comp.id c1 = comp_id)); [eauto|].
  intros [?|Hin]; [tauto|auto].
Qed.

Lemma find_component_absent (comp_id : Z) (comps : list comp.t) :
  ~ In comp_id (map comp.id comps) -> find_component comp_id comps = Raise StopIteration.
Proof.
  induction comps as [|c1 comps IH]; cbn; [reflexivity|].
  destruct (decide (comp.id c1 = comp_id)); [tauto|]. intros H. apply IH. tauto.
Qed.

Lemma find_component_unique (comps : list comp.t) (c : comp.t) :
  NoDup (map comp.id comps) -> In c comps -> find_component (comp.id c) comps = Ret c.
Proof.
  induction comps as [|c1 comps IH]; cbn; [tauto|].
  intros Hdup [->|Hin].
  - destruct (decide (comp.id c = comp.id c)); [reflexivity|tauto].
  - apply NoDup_cons in Hdup as [Hnot Hdup].
    destruct (decide (comp.id c1 = comp.id c)) as [Heq|Hne]; [|auto].
    exfalso. apply Hnot. rewrite Heq. apply list_elem_of_In. now apply in_map.
Qed.

Lemma find_component_app (comp_id : Z) (comps more : list comp.t) :
  find_component comp_id (comps ++ more) =
  match find_component comp_id comps with
  | Ret c => Ret c
  | Raise _ => find_component comp_id more
  end.
Proof.
  induction comps as [|c1 comps IH]; cbn; [reflexivity|].
  destruct (decide (comp.id c1 = comp_id)); [reflexivity|exact IH].
Qed.

(** Adding and looking up: in a state whose ids are allocated as
    above, the component just added is the one found under the new
    count, it carries the params of its catalog entry, and every
    component that was there is still found under its id. *)
Theorem added_component_is_found (st : session_state) (ty : string) (x_pos y_pos : float)
    (Hst : ids_allocated st) (Hty : In ty catalog_types) :
  let st' := fst (add_component ty x_pos y_pos st) in
  (exists p, lookup_params COMPONENTS ty = Ret p /\
             find_component (component_counter st') (circuit_components st') =
               Ret (comp.mk (component_counter st + 1) ty x_pos y_pos p)) /\
  (forall c, In c (circuit_components st) ->
             find_component (comp.id c) (circuit_components st') = Ret c).
Proof.
  cbv zeta. destruct Hst as (Hpos & Hrange & Hdup).
  destruct (add_component_known ty x_pos y_pos st Hty) as (p & Hp & ->). cbn [fst].
  cbn [circuit_components component_counter]. split.
  - exists p. split; [exact Hp|]. rewrite find_component_app.
    rewrite find_component_absent.
    + cbn. destruct (decide ((component_counter st + 1)%Z = (component_counter st + 1)%Z));
        [reflexivity|tauto].
    + intros Hin. apply in_map_iff in Hin as (c0 & Hid & Hc0).
      rewrite Forall_forall in Hrange.
      specialize (Hrange c0 (proj2 (list_elem_of_In _ _) Hc0)). lia.
  - intros c Hin. rewrite find_component_app.
    now rewrite (find_component_unique _ _ Hdup Hin).
Qed.

Lemma added_component_is_found_witness :
  ids_allocated resistor_battery_circuit /\
  In "Load" catalog_types /\
  find_component 3
    (circuit_components (fst (add_component "Load" 1 1 resistor_battery_circuit))) =
    Ret (comp.mk 3 "Load" 1 1
           {[ "power" := VFloat 100.0; "voltage" := VFloat 12.0;
              "type" := VStr "Resistive" ]}).
Proof.
  assert (Hst : ids_allocated resistor_battery_circuit)
    by exact (ids_stay_distinct _).
  assert (Hty : In "Load" catalog_types) by (unfold catalog_types; cbn; auto 20).
  split; [exact Hst|]. split; [exact Hty|].
  destruct (proj1 (added_component_is_found resistor_battery_circuit "Load" 1 1 Hst Hty))
    as (p & Hp & Hfind).
  vm_compute in Hp. injection Hp as <-. exact Hfind.
Defined.

Lemma lookup_params_unknown (table : list (string * gmap string value)) (name : string) :
  ~ In name (map fst table) -> lookup_params table name = Raise KeyError.
Proof.
  induction table as [|[n p] table IH]; cbn; [reflexivity|].
  intros H. destruct (String.eqb name n) eqn:E.
  - apply String.eqb_eq in E. subst. tauto.
  - apply IH. tauto.
Qed.

(** A type that is not in the catalog: the KeyError of the catalog
    lookup escapes "Add Component" after the counter was incremented,
    so no component is added but the id is spent: the next component
    added gets the count after it. *)
Theorem unknown_type_spends_an_id (st : session_state) (ty : string) (x_pos y_pos : float)
    (Hty : ~ In ty catalog_types) :
  add_component ty x_pos y_pos st =
    (set_component_counter (component_counter st + 1) st, UnknownComponentType) /\
  (forall ty' x' y',
     In ty' catalog_types ->
     exists c,
       circuit_components
         (fst (add_component ty' x' y' (fst (add_component ty x_pos y_pos st)))) =
         circuit_components st ++ [c] /\
       comp.id c = (component_counter st + 2)%Z).
Proof.
  assert (Hadd : add_component ty x_pos y_pos st =
                 (set_component_counter (component_counter st + 1) st,
                  UnknownComponentType)).
  { unfold add_component. rewrite (lookup_params_unknown COMPONENTS ty Hty). reflexivity. }
  split; [exact Hadd|].
  intros ty' x' y' Hin. rewrite Hadd. cbn [fst].
  destruct (add_component_known ty' x' y'
              (set_component_counter (component_counter st + 1) st) Hin) as (p & _ & ->).
  cbn. eexists. split; [reflexivity|]. cbn. lia.
Qed.

Lemma unknown_type_spends_an_id_witness :
  ~ In "Relay" catalog_types /\
  add_component "Relay" 1 1 initial_state =
    (set_component_counter 1 initial_state, UnknownComponentType).
Proof.
  assert (H : ~ In "Relay" catalog_types).
  { unfold catalog_types. cbn. intros Hin.
    repeat (destruct Hin as [E|Hin]; [discriminate E|]). exact Hin. }
  split; [exact H|].
  exact (proj1 (unknown_type_spends_an_id initial_state "Relay" 1 1 H)).
Defined.

(** ** The stored connections *)

Lemma handle_connections_NoDup (a : action) (st : session_state) :
  NoDup (connections st) -> NoDup (connections (fst (handle a st))).
Proof.
  intros Hdup.
  destruct a as [ty x_pos y_pos|from_id to_id| | |comp_id new_params]; cbn [handle].
  - unfold add_component. destruct (lookup_params COMPONENTS ty); exact Hdup.
  - destruct (connect_components_cases from_id to_id st)
      as [[_ ->]|[(_ & _ & ->)|(_ & Hnin & ->)]]; cbn; auto.
    apply NoDup_app. split; [exact Hdup|]. split; [|apply NoDup_singleton].
    intros cn Hin Hin'. apply list_elem_of_singleton in Hin'. subst cn. tauto.
  - constructor.
  - unfold analyze_circuit. destruct (circuit_components st); [exact Hdup|].
    destruct (calculate_circuit_parameters st); exact Hdup.
  - unfold update_parameters.
    destruct (assign_params comp_id new_params (circuit_components st)); exact Hdup.
Qed.

(** Whatever the user does, from the start of a session on, no
    ordered pair is stored twice and no connection joins a component to
    itself. *)
Theorem connections_stay_distinct (actions : list action) :
  NoDup (connections (run actions initial_state)) /\
  no_self_connection (run actions initial_state).
Proof.
  split.
  - assert (H : forall st, NoDup (connections st) -> NoDup (connections (run actions st))).
    { induction actions as [|a actions IH]; intros st Hst; [exact Hst|].
      cbn. apply IH. now apply handle_connections_NoDup. }
    apply H. constructor.
  - apply run_no_self_connection. exact initial_no_self_connection.
Qed.

(** ** Drawing the connections *)

Lemma resolved_dec (comps : list comp.t) (cn : conn.t) :
  resolved comps cn \/ ~ resolved comps cn.
Proof.
  unfold resolved.
  destruct (in_dec Z.eq_dec (conn.from_comp cn) (map comp.id comps));
    destruct (in_dec Z.eq_dec (conn.to_comp cn) (map comp.id comps)); tauto.
Qed.

(** The loop of [draw_circuit] over the connections returns, with one
    line per connection, exactly when both ends of every connection
    are ids of components; a connection with a dangling end makes it
    raise the StopIteration of [next], and it raises nothing else. *)
Theorem draw_connections_needs_both_ends (comps : list comp.t) (conns : list conn.t) :
  (Forall (resolved comps) conns ->
     exists lines, draw_connections comps conns = Ret lines /\
                   length lines = length conns) /\
  (~ Forall (resolved comps) conns ->
     draw_connections comps conns = Raise StopIteration).
Proof.
  induction conns as [|cn conns [IHok IHbad]].
  - split; [|intros H; exfalso; apply H; constructor].
    intros _. exists []. auto.
  - split.
    + intros H. apply Forall_cons in H as [[Hfrom Hto] H].
      destruct (find_component_present _ _ Hfrom) as [c1 H1].
      destruct (find_component_present _ _ Hto) as [c2 H2].
      destruct (IHok H) as (lines & Hl & Hlen).
      exists (connection_line c1 c2 :: lines). cbn. rewrite H1, H2. cbn.
      rewrite Hl. cbn. auto.
    + intros H. cbn.
      destruct (in_dec Z.eq_dec (conn.from_comp cn) (map comp.id comps)) as [Hfrom|Hfrom];
        [|now rewrite (find_component_absent _ _ Hfrom)].
      destruct (find_component_present _ _ Hfrom) as [c1 ->]. cbn.
      destruct (in_dec Z.eq_dec (conn.to_comp cn) (map comp.id comps)) as [Hto|Hto];
        [|now rewrite (find_component_absent _ _ Hto)].
      destruct (find_component_present _ _ Hto) as [c2 ->]. cbn.
      rewrite IHbad; [reflexivity|].
      intros Hall. apply H. constructor; [split; assumption|exact Hall].
Qed.

Lemma draw_connections_needs_both_ends_witness :
  Forall (resolved (circuit_components connected_circuit)) (connections connected_circuit) /\
  ~ Forall (resolved []) [conn.mk 7 8] /\
  draw_connections [] [conn.mk 7 8] = Raise StopIteration /\
  exists lines,
    draw_connections (circuit_components connected_circuit) (connections connected_circuit) =
      Ret lines /\
    length lines = length (connections connected_circuit).
Proof.
  assert (H1 : Forall (resolved (circuit_components connected_circuit))
                 (connections connected_circuit)).
  { vm_compute. constructor; [|constructor]. split; auto. }
  assert (H2 : ~ Forall (resolved []) [conn.mk 7 8]).
  { intros H. apply Forall_cons in H as [[[] _] _]. }
  split; [exact H1|]. split; [exact H2|]. split.
  - exact (proj2 (draw_connections_needs_both_ends [] [conn.mk 7 8]) H2).
  - exact (proj1 (draw_connections_needs_both_ends _ _) H1).
Defined.

Lemma session_ui_reachable (st : session_state) : session st -> ui_reachable st.
Proof.
  induction 1; first [constructor; assumption|eapply ui_update; eassumption].
Qed.

(** In a session every stored connection joins two components that
    are present: the ends are picked among the components, editing
    keeps the ids, and the only removal of components, the clear,
    removes the connections too.  So drawing the connections never
    fails there. *)
Theorem session_connections_resolve (st : session_state) (Hst : session st) :
  Forall (resolved (circuit_components st)) (connections st) /\
  exists lines,
    draw_connections (circuit_components st) (connections st) = Ret lines /\
    length lines = length (connections st).
Proof.
  assert (Hall : Forall (resolved (circuit_components st)) (connections st)).
  { induction Hst as [|st ty x_pos y_pos _ IH Hin|st c1 c2 _ IH Hlen H1 H2|st _ IH|st _ IH
                      |st comp_id c text number _ IH Hc].
    - constructor.
    - destruct (add_component_known ty x_pos y_pos st Hin) as (p & _ & ->). cbn.
      eapply Forall_impl; [exact IH|]. intros cn [Hf Ht]. unfold resolved.
      rewrite map_app. split; apply in_or_app; now left.
    - destruct (connect_components_cases (comp.id c1) (comp.id c2) st)
        as [[_ ->]|[(_ & _ & ->)|(_ & _ & ->)]]; cbn; auto.
      apply Forall_app. split; [exact IH|]. constructor; [|constructor].
      split; cbn; now apply in_map.
    - constructor.
    - unfold analyze_circuit. destruct (circuit_components st) eqn:E;
        [cbn; rewrite E; exact IH|].
      destruct (calculate_circuit_parameters st); cbn; rewrite E; exact IH.
    - unfold update_parameters.
      destruct (assign_params comp_id _ (circuit_components st)) as [comps'|] eqn:Ha;
        [|exact IH].
      cbn. unfold resolved. rewrite (assign_params_ids _ _ _ _ Ha). exact IH. }
  split; [exact Hall|].
  exact (proj1 (draw_connections_needs_both_ends _ _) Hall).
Qed.

Lemma session_connections_resolve_witness :
  session connected_circuit /\
  Forall (resolved (circuit_components connected_circuit)) (connections connected_circuit).
Proof.
  assert (Hst : session connected_circuit).
  { pose (number := fun key : string =>
                      if String.eqb key "resistance" then 2000.0%float
                      else if String.eqb key "power_rating" then 0.25%float
                      else 5.0%float).
    pose (st2 := fst (add_component "Battery" 4 2
                        (fst (add_component "Resistor" 2 2 initial_state)))).
    pose (resistor := comp.mk 1 "Resistor" 2 2
                        {[ "resistance" := VFloat 1000.0; "power_rating" := VFloat 0.25;
                           "tolerance" := VFloat 5.0 ]}).
    pose (st3 := fst (update_parameters 1
                        (editor_form (fun _ => EmptyString) number (comp.params resistor))
                        st2)).
    assert (H2 : session st2).
    { apply session_add; [apply session_add; [apply session_start|]|];
        unfold catalog_types; cbn; auto 20. }
    assert (H3 : session st3).
    { apply session_update; [exact H2|]. vm_compute; reflexivity. }
    change connected_circuit with
      (fst (connect_components
              (comp.id (comp.mk 1 "Resistor" 2 2
                          {[ "resistance" := VFloat 2000.0; "power_rating" := VFloat 0.25;
                             "tolerance" := VFloat 5.0 ]}))
              (comp.id (comp.mk 2 "Battery" 4 2
                          {[ "voltage" := VFloat 9.0; "capacity" := VFloat 1000.0;
                             "internal_resistance" := VFloat 0.1 ]})) st3)).
    apply session_connect; [exact H3| | |].
    - vm_compute. lia.
    - vm_compute. left. reflexivity.
    - vm_compute. right. left. reflexivity. }
  split; [exact Hst|]. exact (proj1 (session_connections_resolve _ Hst)).
Defined.
